(** * start_server.py: the launcher of the Historical Universe Models application

    A shallow embedding of [main()] of [start_server.py].  The script is
    sequential Python code that talks to the outside world (file system,
    socket layer, browser, console, the user's Ctrl+C) and uses exceptions
    for every abnormal path, [sys.exit] included.  It is embedded in a small
    state-and-exception monad:

    - the state holds the function's local variables ([missing_files],
      [httpd], the latter possibly unbound) and the trace of the external
      calls made so far;
    - a computation returns a value, raises a Python exception, or never
      returns (the serve loop, a deadlocked [shutdown]);
    - what the outside world answers to each external call is given by a
      record [world], over which the theorems quantify. *)

From Stdlib Require Import List String Ascii ZArith NArith Bool Lia.
From Stdlib Require Import DecimalString.
Import ListNotations.
Open Scope string_scope.

(** ** Python exceptions *)

Module Py.

(** The part of Python's exception hierarchy the script can meet.
    [SystemExit] and [KeyboardInterrupt] derive from [BaseException] only;
    the other three derive from [Exception]. *)
Inductive exn : Type :=
| SystemExit (code : Z)
| KeyboardInterrupt
| OSError (errno : Z) (str : string)
| UnboundLocalError (name : string)
| OtherException (str : string).

Definition is_KeyboardInterrupt (e : exn) : bool :=
  match e with KeyboardInterrupt => true | _ => false end.

Definition is_OSError (e : exn) : bool :=
  match e with OSError _ _ => true | _ => false end.

Definition is_Exception (e : exn) : bool :=
  match e with
  | OSError _ _ | UnboundLocalError _ | OtherException _ => true
  | SystemExit _ | KeyboardInterrupt => false
  end.

(** [e.errno]; [None] for an exception without that attribute. *)
Definition errno_of (e : exn) : option Z :=
  match e with OSError n _ => Some n | _ => None end.

(** [e.errno == n] *)
Definition errno_eq (e : exn) (n : Z) : bool :=
  match errno_of e with
  | Some m => Z.eqb m n
  | None => false
  end.

Definition nl : string := String "010" EmptyString.

(** [str(n)] for a non-negative integer. *)
Definition str_of_N (n : N) : string := NilEmpty.string_of_uint (N.to_uint n).

Definition str_of_Z (z : Z) : string := NilEmpty.string_of_int (Z.to_int z).

(** [str(e)], as interpolated by [f"{e}"]. *)
Definition str_of_exn (e : exn) : string :=
  match e with
  | SystemExit c => str_of_Z c
  | KeyboardInterrupt => ""
  | OSError _ s => s
  | UnboundLocalError x =>
      "cannot access local variable '" ++ x ++
      "' where it is not associated with a value"
  | OtherException s => s
  end.

(** ['c' * n] *)
Fixpoint repeat_str (c : string) (n : nat) : string :=
  match n with
  | O => ""
  | S n' => c ++ repeat_str c n'
  end.

End Py.

Export Py.

(** ** The outside world *)

(** What a call into a library returns. *)
Inductive call_result (A : Type) : Type :=
| Returned (a : A)
| Raised (e : exn).
Arguments Returned {A} a.
Arguments Raised {A} e.

(** One run's answers to the script's external calls.  Each of [os.chdir],
    the [TCPServer] constructor, [webbrowser.open] and [serve_forever] is
    called at most once in a run, so one answer each is enough.  A Ctrl+C
    shows as the [KeyboardInterrupt] raised by the call during which it
    arrives.  [print] and [Path.exists] are taken to return. *)
Record world : Type := {
  script_dir : string;                  (* str(Path(__file__).parent) *)
  chdir_raises : option exn;            (* None: os.chdir succeeds *)
  path_exists : string -> bool;         (* Path(p).exists() *)
  bind_raises : option exn;             (* None: TCPServer(...) is constructed *)
  browser_open : call_result bool;      (* webbrowser.open(url) *)
  serve_forever_raises : option exn     (* None: the serve loop never ends *)
}.

(** The calls into the outside world, in the order they are made. *)
Inductive event : Type :=
| EvChdir (dir : string)
| EvExists (path : string)
| EvPrint (line : string)
| EvBind (host : string) (port : N)
| EvBrowserOpen (url : string)
| EvServeForever
| EvShutdown.

(** ** The server object

    [socketserver.BaseServer.__init__] creates the event [__is_shut_down]
    unset and [__shutdown_request] false; [TCPServer.__init__] binds and
    listens.  Only [server_close], which the script never calls, closes the
    listening socket. *)
Record TCPServer : Type := {
  server_address : string * N;
  listening : bool;
  is_shut_down : bool;
  shutdown_request : bool
}.

(** ** Local variables and trace *)

Record state : Type := {
  missing_files : list string;
  httpd : option TCPServer;             (* None: the local is unbound *)
  trace : list event
}.

Definition init : state :=
  {| missing_files := []; httpd := None; trace := [] |}.

(** The state after further external calls. *)
Definition add_trace (s : state) (t : list event) : state :=
  {| missing_files := missing_files s;
     httpd := httpd s;
     trace := trace s ++ t |}.

(** The state after [httpd = v]. *)
Definition set_httpd (s : state) (v : TCPServer) : state :=
  {| missing_files := missing_files s;
     httpd := Some v;
     trace := trace s |}.

(** Where a computation that never returns is stuck. *)
Inductive block_site : Type := InServeForever | InShutdown.

Inductive result (A : Type) : Type :=
| Val (a : A)
| Exc (e : exn)
| Blocked (b : block_site).
Arguments Val {A} a.
Arguments Exc {A} e.
Arguments Blocked {A} b.

Definition M (A : Type) : Type := state -> result A * state.

Definition ret {A} (a : A) : M A := fun s => (Val a, s).

Definition bind {A B} (m : M A) (k : A -> M B) : M B :=
  fun s =>
    match m s with
    | (Val a, s') => k a s'
    | (Exc e, s') => (Exc e, s')
    | (Blocked b, s') => (Blocked b, s')
    end.

Definition raise {A} (e : exn) : M A := fun s => (Exc e, s).

Definition block {A} (b : block_site) : M A := fun s => (Blocked b, s).

Declare Scope py_scope.
Delimit Scope py_scope with py.
Notation "x <- c1 ;; c2" := (bind c1 (fun x => c2))
  (at level 61, c1 at next level, right associativity) : py_scope.
Notation "c1 ;; c2" := (bind c1 (fun _ => c2))
  (at level 61, right associativity) : py_scope.
Open Scope py_scope.

(** [except] clauses, tried in order; the first whose class test accepts
    the exception handles it. *)
Definition handlers (A : Type) : Type := list ((exn -> bool) * (exn -> M A)).

Fixpoint find_handler {A} (e : exn) (hs : handlers A) : option (exn -> M A) :=
  match hs with
  | [] => None
  | (cls, h) :: hs' => if cls e then Some h else find_handler e hs'
  end.

(** [try: body except ...]: an exception raised by the body is handed to the
    first matching clause; one raised by a clause, or matched by none,
    propagates. *)
Definition handle {A} (hs : handlers A) (e : exn) : M A :=
  match find_handler e hs with
  | Some h => h e
  | None => raise e
  end.

Definition try_except {A} (body : M A) (hs : handlers A) : M A :=
  fun s =>
    match body s with
    | (Exc e, s') => handle hs e s'
    | r => r
    end.

(** [for x in xs: body] *)
Fixpoint for_each {A} (xs : list A) (body : A -> M unit) : M unit :=
  match xs with
  | [] => ret tt
  | x :: xs' => body x ;; for_each xs' body
  end.

(** ** Primitive statements *)

Definition emit (ev : event) : M unit :=
  fun s => (Val tt, add_trace s [ev]).

Definition print (line : string) : M unit := emit (EvPrint line).

(** [sys.exit(code)] raises [SystemExit]. *)
Definition sys_exit {A} (code : Z) : M A := raise (SystemExit code).

Definition os_chdir (w : world) (dir : string) : M unit :=
  emit (EvChdir dir) ;;
  match chdir_raises w with
  | None => ret tt
  | Some e => raise e
  end.

Definition Path_exists (w : world) (p : string) : M bool :=
  emit (EvExists p) ;; ret (path_exists w p).

Definition get_missing_files : M (list string) :=
  fun s => (Val (missing_files s), s).

(** [missing_files.append(p)] *)
Definition missing_files_append (p : string) : M unit :=
  fun s => (Val tt, {| missing_files := missing_files s ++ [p];
                       httpd := httpd s;
                       trace := trace s |}).

(** [socketserver.TCPServer((host, port), handler)] *)
Definition bound_server (host : string) (port : N) : TCPServer :=
  {| server_address := (host, port);
     listening := true;
     is_shut_down := false;
     shutdown_request := false |}.

Definition TCPServer_new (w : world) (host : string) (port : N) : M TCPServer :=
  emit (EvBind host port) ;;
  match bind_raises w with
  | None => ret (bound_server host port)
  | Some e => raise e
  end.

(** [httpd = v] *)
Definition assign_httpd (v : TCPServer) : M unit :=
  fun s => (Val tt, set_httpd s v).

(** Reading the local [httpd]; unbound, it raises [UnboundLocalError]. *)
Definition read_httpd : M TCPServer :=
  fun s =>
    match httpd s with
    | Some v => (Val v, s)
    | None => (Exc (UnboundLocalError "httpd"), s)
    end.

Definition webbrowser_open (w : world) (url : string) : M bool :=
  emit (EvBrowserOpen url) ;;
  match browser_open w with
  | Returned b => ret b
  | Raised e => raise e
  end.

(** [httpd.serve_forever()]: clears [__is_shut_down], loops, and in its
    [finally] resets [__shutdown_request] and sets [__is_shut_down].  No
    other thread ever requests a shutdown, so the loop ends only by an
    exception. *)
Definition loop_entered (v : TCPServer) : TCPServer :=
  {| server_address := server_address v;
     listening := listening v;
     is_shut_down := false;
     shutdown_request := shutdown_request v |}.

Definition loop_left (v : TCPServer) : TCPServer :=
  {| server_address := server_address v;
     listening := listening v;
     is_shut_down := true;
     shutdown_request := false |}.

Definition serve_forever (w : world) : M unit :=
  v <- read_httpd ;;
  emit EvServeForever ;;
  match serve_forever_raises w with
  | None => assign_httpd (loop_entered v) ;; block InServeForever
  | Some e => assign_httpd (loop_left v) ;; raise e
  end.

(** [httpd.shutdown()]: sets [__shutdown_request] and waits for
    [__is_shut_down]; it returns only if a serve loop has run and ended. *)
Definition shutdown_requested (v : TCPServer) : TCPServer :=
  {| server_address := server_address v;
     listening := listening v;
     is_shut_down := is_shut_down v;
     shutdown_request := true |}.

Definition shutdown : M unit :=
  v <- read_httpd ;;
  emit EvShutdown ;;
  assign_httpd (shutdown_requested v) ;;
  if is_shut_down v then ret tt else block InShutdown.

(** ** The script *)

Record config : Type := {
  PORT : N;
  HOST : string;
  required_files : list string
}.

(** [f"http://{HOST}:{PORT}"] *)
Definition base_url (c : config) : string :=
  "http://" ++ HOST c ++ ":" ++ str_of_N (PORT c).

Definition demo_url (c : config) : string := base_url c ++ "/demo.html".

Definition rule : string := repeat_str "=" 50.

(** Lines 21 to 38: change directory, check the required files, and leave
    with status 1 if any is missing. *)
Definition check_required_files (c : config) (w : world) : M unit :=
  os_chdir w (script_dir w) ;;
  for_each (required_files c) (fun file_path =>
    b <- Path_exists w file_path ;;
    if negb b then missing_files_append file_path else ret tt) ;;
  missing <- get_missing_files ;;
  match missing with
  | [] => ret tt
  | _ :: _ =>
      print "❌ Error: Missing required files:" ;;
      for_each missing (fun file_path => print ("   - " ++ file_path)) ;;
      print (nl ++ "Please ensure all application files are present.") ;;
      sys_exit 1
  end.

Definition banner (c : config) (w : world) : M unit :=
  print "🌌 Historical Universe Models - 3D Explorer" ;;
  print rule ;;
  print ("🚀 Server starting on " ++ base_url c) ;;
  print ("📂 Serving from: " ++ script_dir w) ;;
  print rule ;;
  print "" ;;
  print ("🎯 Main Application: " ++ base_url c ++ "/") ;;
  print ("📋 Demo Page: " ++ base_url c ++ "/demo.html") ;;
  print "" ;;
  print "💡 The application will open automatically in your browser." ;;
  print "   If it doesn't, copy and paste the URL above." ;;
  print "" ;;
  print "⏹️  Press Ctrl+C to stop the server" ;;
  print rule.

Definition browser_warning (c : config) (e : exn) : list string :=
  [ "⚠️  Could not auto-open browser: " ++ str_of_exn e;
    "   Please manually open " ++ base_url c ++ "/ in your browser" ].

(** Lines 60 to 65. *)
Definition open_browser (c : config) (w : world) : M unit :=
  try_except
    (webbrowser_open w (demo_url c) ;; ret tt)
    [ (is_Exception, fun e => for_each (browser_warning c e) print) ].

Definition stopped_by_user : string := nl ++ "🛑 Server stopped by user".

Definition port_in_use (c : config) : list string :=
  [ "❌ Error: Port " ++ str_of_N (PORT c) ++ " is already in use.";
    "   Try using a different port or stop the other server." ].

Definition error_starting (e : exn) : string :=
  "❌ Error starting server: " ++ str_of_exn e.

Definition unexpected_error (e : exn) : string :=
  "❌ Unexpected error: " ++ str_of_exn e.

(** Lines 42 to 68: the body of the outer [try]. *)
Definition try_block (c : config) (w : world) : M unit :=
  v <- TCPServer_new w (HOST c) (PORT c) ;;
  assign_httpd v ;;
  banner c w ;;
  open_browser c w ;;
  serve_forever w.

(** Lines 70 to 85: its three [except] clauses. *)
Definition except_clauses (c : config) : handlers unit :=
    [ (is_KeyboardInterrupt, fun _ =>
         print stopped_by_user ;;
         shutdown ;;
         sys_exit 0);
      (is_OSError, fun e =>
         (if errno_eq e 48
          then for_each (port_in_use c) print
          else print (error_starting e)) ;;
         sys_exit 1);
      (is_Exception, fun e =>
         print (unexpected_error e) ;;
         sys_exit 1) ].

(** Lines 41 to 85. *)
Definition create_server (c : config) (w : world) : M unit :=
  try_except (try_block c w) (except_clauses c).

Definition main_with (c : config) (w : world) : M unit :=
  check_required_files c w ;;
  create_server c w.

Definition default_config : config :=
  {| PORT := 8000; HOST := "localhost";
     required_files := ["index.html"; "js/app.js"] |}.

Definition main (w : world) : M unit := main_with default_config w.

(** ** The process *)

(** How a run of the interpreter on the script ends: [main()] returns or
    [SystemExit] reaches the top (exit with that status), another exception
    reaches the top (traceback), or the process never ends. *)
Inductive outcome : Type :=
| Exited (status : Z)
| Traceback (e : exn)
| Running (b : block_site).

Definition outcome_of (r : result unit) : outcome :=
  match r with
  | Val _ => Exited 0
  | Exc (SystemExit code) => Exited code
  | Exc e => Traceback e
  | Blocked b => Running b
  end.

Definition run_with (c : config) (w : world) : outcome * state :=
  let (r, s) := main_with c w init in (outcome_of r, s).

Definition run (w : world) : outcome * state := run_with default_config w.

(** The status the parent process sees: after a traceback CPython exits
    with 1 (130 when the exception is an unhandled [KeyboardInterrupt]). *)
Definition exit_status (o : outcome) : option Z :=
  match o with
  | Exited n => Some n
  | Traceback KeyboardInterrupt => Some 130%Z
  | Traceback _ => Some 1%Z
  | Running _ => None
  end.

(** ** Observations on a run *)

(** The lines written to the console, in order. *)
Fixpoint printed (t : list event) : list string :=
  match t with
  | [] => []
  | EvPrint line :: t' => line :: printed t'
  | _ :: t' => printed t'
  end.

(** The required files that do not exist, in the order of the list. *)
Definition absent (w : world) (files : list string) : list string :=
  filter (fun p => negb (path_exists w p)) files.

(** The console lines of a failed check. *)
Definition missing_report (missing : list string) : list string :=
  "❌ Error: Missing required files:" ::
  map (fun file_path => "   - " ++ file_path) missing ++
  [nl ++ "Please ensure all application files are present."].

(** The console lines of the banner. *)
Definition banner_lines (c : config) (w : world) : list string :=
  [ "🌌 Historical Universe Models - 3D Explorer";
    rule;
    "🚀 Server starting on " ++ base_url c;
    "📂 Serving from: " ++ script_dir w;
    rule;
    "";
    "🎯 Main Application: " ++ base_url c ++ "/";
    "📋 Demo Page: " ++ base_url c ++ "/demo.html";
    "";
    "💡 The application will open automatically in your browser.";
    "   If it doesn't, copy and paste the URL above.";
    "";
    "⏹️  Press Ctrl+C to stop the server";
    rule ].

(** A console line that belongs to the browser warning. *)
Definition is_warning_line (line : string) : bool :=
  prefix "⚠️  Could not auto-open browser: " line ||
  prefix "   Please manually open " line.

(** The process is still there. *)
Definition alive (o : outcome) : bool :=
  match o with Running _ => true | _ => false end.

(** The serve loop is running: connections are being accepted. *)
Definition accepting (o : outcome) : bool :=
  match o with Running InServeForever => true | _ => false end.

(** The port is held as long as a listening socket belongs to a live
    process; the operating system closes the sockets of a process that
    ends. *)
Definition port_held (r : outcome * state) : bool :=
  alive (fst r) &&
  match httpd (snd r) with
  | Some v => listening v
  | None => false
  end.

(** Change of directory, required files and bind all succeed. *)
Definition startup_ok (c : config) (w : world) : Prop :=
  chdir_raises w = None /\
  (forall p, In p (required_files c) -> path_exists w p = true) /\
  bind_raises w = None.

(** The trace of a successful check. *)
Definition check_events (c : config) (w : world) : list event :=
  EvChdir (script_dir w) :: map EvExists (required_files c).

(** The trace from the bind up to the call of the browser. *)
Definition bootstrap_events (c : config) (w : world) : list event :=
  EvBind (HOST c) (PORT c) ::
  map EvPrint (banner_lines c w) ++ [EvBrowserOpen (demo_url c)].

(** The browser call reports that no browser was launched: by its result
    ([webbrowser.open] returns [False]) or by an exception. *)
Definition launch_failed (w : world) : bool :=
  match browser_open w with
  | Returned b => negb b
  | Raised e => is_Exception e
  end.

(** ** Worlds *)

Definition with_chdir (w : world) (r : option exn) : world :=
  {| script_dir := script_dir w; chdir_raises := r;
     path_exists := path_exists w; bind_raises := bind_raises w;
     browser_open := browser_open w;
     serve_forever_raises := serve_forever_raises w |}.

Definition with_exists (w : world) (f : string -> bool) : world :=
  {| script_dir := script_dir w; chdir_raises := chdir_raises w;
     path_exists := f; bind_raises := bind_raises w;
     browser_open := browser_open w;
     serve_forever_raises := serve_forever_raises w |}.

Definition with_bind (w : world) (r : option exn) : world :=
  {| script_dir := script_dir w; chdir_raises := chdir_raises w;
     path_exists := path_exists w; bind_raises := r;
     browser_open := browser_open w;
     serve_forever_raises := serve_forever_raises w |}.

Definition with_browser (w : world) (r : call_result bool) : world :=
  {| script_dir := script_dir w; chdir_raises := chdir_raises w;
     path_exists := path_exists w; bind_raises := bind_raises w;
     browser_open := r;
     serve_forever_raises := serve_forever_raises w |}.

Definition with_serve (w : world) (r : option exn) : world :=
  {| script_dir := script_dir w; chdir_raises := chdir_raises w;
     path_exists := path_exists w; bind_raises := bind_raises w;
     browser_open := browser_open w;
     serve_forever_raises := r |}.

(** Every file exists, the port is free, a browser opens, nobody ever
    presses Ctrl+C. *)
Definition fair_weather : world :=
  {| script_dir := "/home/user/modeli-mundi-3d";
     chdir_raises := None;
     path_exists := fun _ => true;
     bind_raises := None;
     browser_open := Returned true;
     serve_forever_raises := None |}.

(** The same, until the user presses Ctrl+C in the serve loop. *)
Definition interrupted : world := with_serve fair_weather (Some KeyboardInterrupt).

(** Only [index.html] and [demo.html] are there. *)
Definition app_js_missing : world :=
  with_exists fair_weather
    (fun p => String.eqb p "index.html" || String.eqb p "demo.html").

(** Everything but [demo.html] is there. *)
Definition demo_missing : world :=
  with_exists fair_weather (fun p => negb (String.eqb p "demo.html")).

(** No browser can be launched: [webbrowser.open] returns [False]. *)
Definition no_browser : world := with_browser interrupted (Returned false).

(** [webbrowser.open] raises. *)
Definition browser_raises : world :=
  with_browser interrupted
    (Raised (OtherException "could not locate runnable browser")).

(** Ctrl+C arrives while the constructor of the server runs. *)
Definition interrupted_in_bind : world :=
  with_bind fair_weather (Some KeyboardInterrupt).

(** The script's directory cannot be entered. *)
Definition chdir_denied : world :=
  with_chdir fair_weather
    (Some (OSError 13 "[Errno 13] Permission denied: '/home/user/modeli-mundi-3d'")).

(** The platforms and their number for [EADDRINUSE] ([errno.EADDRINUSE];
    [WSAEADDRINUSE] on Windows). *)
Inductive platform : Type := Linux | Darwin | Windows.

Definition EADDRINUSE (p : platform) : Z :=
  match p with
  | Linux => 98
  | Darwin => 48
  | Windows => 10048
  end.

(** What the constructor raises when another listener holds the port. *)
Definition address_in_use (p : platform) : exn :=
  match p with
  | Linux => OSError (EADDRINUSE Linux) "[Errno 98] Address already in use"
  | Darwin => OSError (EADDRINUSE Darwin) "[Errno 48] Address already in use"
  | Windows =>
      OSError (EADDRINUSE Windows)
        "[WinError 10048] Only one usage of each socket address (protocol/network address/port) is normally permitted"
  end.

Definition port_occupied (p : platform) : world :=
  with_bind fair_weather (Some (address_in_use p)).

(** Control reaches the statement after the inner [try]: the browser call
    returned, or raised an exception its [except Exception] clause takes. *)
Definition browser_passes (w : world) : bool :=
  match browser_open w with
  | Returned _ => true
  | Raised e => is_Exception e
  end.

(** What the inner [except] clause prints. *)
Definition warning_events (c : config) (w : world) : list event :=
  match browser_open w with
  | Returned _ => []
  | Raised e => if is_Exception e then map EvPrint (browser_warning c e) else []
  end.

(** The events an [except] clause of the outer [try] can add. *)
Definition is_handler_event (ev : event) : bool :=
  match ev with
  | EvPrint _ | EvShutdown => true
  | _ => false
  end.

(** The URLs handed to the browser, in order. *)
Fixpoint browser_opens (t : list event) : list string :=
  match t with
  | [] => []
  | EvBrowserOpen url :: t' => url :: browser_opens t'
  | _ :: t' => browser_opens t'
  end.

(** A property of events that a statement keeps true of the whole trace. *)
Definition preserves (P : event -> Prop) {A} (m : M A) : Prop :=
  forall s, Forall P (trace s) -> Forall P (trace (snd (m s))).

(** The file-system checks and browser calls a run may make. *)
Definition expected_event (c : config) (ev : event) : Prop :=
  match ev with
  | EvExists p => In p (required_files c)
  | EvBrowserOpen url => url = demo_url c
  | _ => True
  end.

(** Nothing printed belongs to the browser warning. *)
Definition no_warning (ev : event) : Prop :=
  match ev with
  | EvPrint line => is_warning_line line = false
  | _ => True
  end.

(** The events that can follow the browser call. *)
Definition is_after_event (ev : event) : bool :=
  match ev with
  | EvPrint _ | EvShutdown | EvServeForever => true
  | _ => false
  end.

(** What the outer [except OSError] and [except Exception] clauses print
    for an exception. *)
Definition error_report (c : config) (e : exn) : list string :=
  match e with
  | OSError n _ => if Z.eqb n 48 then port_in_use c else [error_starting e]
  | _ => [unexpected_error e]
  end.

(** The fatal conditions the script handles itself, each with the lines it
    reports: required files missing, an exception of class [Exception]
    from the constructor of the server, and one from the serve loop. *)
Inductive fatal (c : config) (w : world) : list string -> Prop :=
| fatal_missing :
    absent w (required_files c) <> [] ->
    fatal c w (missing_report (absent w (required_files c)))
| fatal_bind (e : exn) :
    absent w (required_files c) = [] ->
    bind_raises w = Some e ->
    is_Exception e = true ->
    fatal c w (error_report c e)
| fatal_serve (e : exn) :
    absent w (required_files c) = [] ->
    bind_raises w = None ->
    browser_passes w = true ->
    serve_forever_raises w = Some e ->
    is_Exception e = true ->
    fatal c w (error_report c e).

(** ** Summaries of a run

    The outcome and the trace of a run, read off the answers of the world.
    They are proved equal to what [run_with] computes and serve to decide
    questions about all runs by cases. *)

(** Not [SystemExit]: what a library call can raise. *)
Definition library_exn (e : exn) : bool :=
  match e with SystemExit _ => false | _ => true end.

Definition raises_library_exn (r : option exn) : bool :=
  match r with
  | Some e => library_exn e
  | None => true
  end.

(** No external call of the run raises [SystemExit]. *)
Definition no_SystemExit (w : world) : bool :=
  raises_library_exn (chdir_raises w) &&
  raises_library_exn (bind_raises w) &&
  match browser_open w with
  | Returned _ => true
  | Raised e => library_exn e
  end &&
  raises_library_exn (serve_forever_raises w).

(** How the outer [except] clauses end the run for an exception, given the
    server: [None] when [httpd] is unbound, [Some b] when it is bound, with
    [b] telling whether a serve loop has run and ended. *)
Definition handled (e : exn) (server : option bool) : outcome :=
  match e with
  | SystemExit n => Exited n
  | KeyboardInterrupt =>
      match server with
      | None => Traceback (UnboundLocalError "httpd")
      | Some true => Exited 0
      | Some false => Running InShutdown
      end
  | _ => Exited 1
  end.

(** The external calls they make. *)
Definition handler_events (c : config) (e : exn) (server : option bool)
  : list event :=
  match e with
  | SystemExit _ => []
  | KeyboardInterrupt =>
      EvPrint stopped_by_user ::
      match server with
      | None => []
      | Some _ => [EvShutdown]
      end
  | _ => map EvPrint (error_report c e)
  end.

Definition outcome_table (c : config) (w : world) : outcome :=
  match chdir_raises w with
  | Some e => outcome_of (Exc e)
  | None =>
      match absent w (required_files c) with
      | _ :: _ => Exited 1
      | [] =>
          match bind_raises w with
          | Some e => handled e None
          | None =>
              if browser_passes w then
                match serve_forever_raises w with
                | None => Running InServeForever
                | Some e => handled e (Some true)
                end
              else
                match browser_open w with
                | Raised e => handled e (Some false)
                | Returned _ => Running InServeForever
                end
          end
      end
  end.

Definition trace_table (c : config) (w : world) : list event :=
  match chdir_raises w with
  | Some _ => [EvChdir (script_dir w)]
  | None =>
      check_events c w ++
      match absent w (required_files c) with
      | m0 :: m => map EvPrint (missing_report (m0 :: m))
      | [] =>
          match bind_raises w with
          | Some e => EvBind (HOST c) (PORT c) :: handler_events c e None
          | None =>
              bootstrap_events c w ++
              if browser_passes w then
                warning_events c w ++
                EvServeForever ::
                match serve_forever_raises w with
                | None => []
                | Some e => handler_events c e (Some true)
                end
              else
                match browser_open w with
                | Raised e => handler_events c e (Some false)
                | Returned _ => []
                end
          end
      end
  end.

(** The addresses handed to the constructor of the server, in order. *)
Fixpoint binds (t : list event) : list (string * N) :=
  match t with
  | [] => []
  | EvBind host port :: t' => (host, port) :: binds t'
  | _ :: t' => binds t'
  end.

(** The number of calls of [shutdown]. *)
Fixpoint shutdowns (t : list event) : nat :=
  match t with
  | [] => O
  | EvShutdown :: t' => S (shutdowns t')
  | _ :: t' => shutdowns t'
  end.

(** The existence checks, in order. *)
Fixpoint checked (t : list event) : list string :=
  match t with
  | [] => []
  | EvExists p :: t' => p :: checked t'
  | _ :: t' => checked t'
  end.

(** [webbrowser.open] is interrupted by Ctrl+C. *)
Definition interrupted_in_browser : world :=
  with_browser fair_weather (Raised KeyboardInterrupt).

(** The serve loop ends with an input/output error. *)
Definition loop_fails : world :=
  with_serve fair_weather (Some (OSError 5 "[Errno 5] Input/output error")).

(** The constructor of the server raises something that is no [OSError]. *)
Definition bind_overflows : world :=
  with_bind fair_weather
    (Some (OtherException "bind(): port must be 0-65535.")).

(** An external call with the arguments the configuration gives it. *)
Definition configured_call (c : config) (w : world) (ev : event) : Prop :=
  match ev with
  | EvChdir dir => dir = script_dir w
  | EvExists p => In p (required_files c)
  | EvBind host port => host = HOST c /\ port = PORT c
  | EvBrowserOpen url => url = demo_url c
  | EvPrint _ | EvServeForever | EvShutdown => True
  end.

(** * Properties *)

(** ** State bookkeeping *)

Lemma add_trace_add_trace (s : state) (t1 t2 : list event) :
  add_trace (add_trace s t1) t2 = add_trace s (t1 ++ t2).
Proof. unfold add_trace; cbn [missing_files httpd trace]. now rewrite app_assoc. Qed.

Lemma add_trace_set_httpd (s : state) (v : TCPServer) (t : list event) :
  add_trace (set_httpd s v) t = set_httpd (add_trace s t) v.
Proof. reflexivity. Qed.

Lemma set_httpd_set_httpd (s : state) (v v' : TCPServer) :
  set_httpd (set_httpd s v) v' = set_httpd s v'.
Proof. reflexivity. Qed.

(** ** Running the loops *)

Lemma for_each_emit {A} (g : A -> event) (xs : list A) (s : state) :
  for_each xs (fun x => emit (g x)) s = (Val tt, add_trace s (map g xs)).
Proof.
  revert s; induction xs as [|x xs IH]; intros s.
  - cbn [for_each map]. unfold ret, add_trace. rewrite app_nil_r. now destruct s.
  - cbn [for_each map]. unfold bind at 1. unfold emit at 1.
    rewrite IH. now rewrite add_trace_add_trace.
Qed.

Lemma for_each_print (lines : list string) (s : state) :
  for_each lines print s = (Val tt, add_trace s (map EvPrint lines)).
Proof. exact (for_each_emit EvPrint lines s). Qed.

Lemma check_loop_run (w : world) (files : list string) (s : state) :
  for_each files (fun file_path =>
    b <- Path_exists w file_path ;;
    if negb b then missing_files_append file_path else ret tt) s =
  (Val tt, {| missing_files := missing_files s ++ absent w files;
              httpd := httpd s;
              trace := trace s ++ map EvExists files |}).
Proof.
  revert s; induction files as [|p files IH]; intros s.
  - cbn [for_each map absent filter]. unfold ret. rewrite !app_nil_r. now destruct s.
  - cbn [for_each]. unfold bind at 1.
    unfold Path_exists, bind, emit, ret, absent. cbn [filter map].
    fold (absent w files).
    destruct (path_exists w p); cbn [negb].
    + unfold ret. rewrite IH. unfold add_trace. cbn [missing_files httpd trace].
      now rewrite <- app_assoc.
    + unfold missing_files_append. rewrite IH. unfold add_trace.
      cbn [missing_files httpd trace]. now rewrite <- !app_assoc.
Qed.

(** ** The preflight check, run *)

Lemma check_required_files_run (c : config) (w : world) :
  check_required_files c w init =
  match chdir_raises w with
  | Some e => (Exc e, add_trace init [EvChdir (script_dir w)])
  | None =>
      match absent w (required_files c) with
      | [] =>
          (Val tt, add_trace init (check_events c w))
      | m =>
          (Exc (SystemExit 1),
           {| missing_files := m; httpd := None;
              trace := check_events c w ++ map EvPrint (missing_report m) |})
      end
  end.
Proof.
  unfold check_required_files, os_chdir.
  unfold bind at 1. unfold bind at 1. unfold emit at 1.
  destruct (chdir_raises w) as [e|]; [reflexivity|].
  unfold ret at 1. unfold bind at 1. rewrite check_loop_run.
  unfold add_trace, init, check_events. cbn [missing_files httpd trace app].
  unfold bind at 1, get_missing_files at 1.
  cbn [missing_files httpd trace app].
  destruct (absent w (required_files c)) as [|m0 m]; [reflexivity|].
  unfold print at 1. unfold bind at 1, emit at 1.
  unfold bind at 1, print.
  rewrite (for_each_emit (fun file_path => EvPrint ("   - " ++ file_path))).
  unfold bind, emit, sys_exit, raise, missing_report, add_trace.
  cbn [missing_files httpd trace app]. f_equal. f_equal.
  rewrite <- !app_assoc. cbn [app map]. f_equal. f_equal. f_equal.
  rewrite map_app, map_map. reflexivity.
Qed.

Lemma main_with_unfold (c : config) (w : world) (s : state) :
  main_with c w s =
  match check_required_files c w s with
  | (Val _, s') => create_server c w s'
  | (Exc e, s') => (Exc e, s')
  | (Blocked b, s') => (Blocked b, s')
  end.
Proof. reflexivity. Qed.

Lemma run_with_unfold (c : config) (w : world) :
  run_with c w =
  (outcome_of (fst (main_with c w init)), snd (main_with c w init)).
Proof. unfold run_with. now destruct (main_with c w init). Qed.

Lemma absent_nil (w : world) (files : list string) :
  (forall p, In p files -> path_exists w p = true) -> absent w files = [].
Proof.
  induction files as [|p files IH]; intros H; [reflexivity|].
  unfold absent in *. cbn [filter]. rewrite (H p (or_introl eq_refl)).
  cbn [negb]. apply IH. intros q Hq. apply H. now right.
Qed.

Lemma absent_In (w : world) (files : list string) (p : string) :
  In p (absent w files) <-> In p files /\ path_exists w p = false.
Proof.
  unfold absent. rewrite filter_In. now destruct (path_exists w p).
Qed.

Lemma absent_not_nil (w : world) (files : list string) (p : string) :
  In p files -> path_exists w p = false -> absent w files <> [].
Proof.
  intros Hin Hp Habs.
  assert (Hq : In p (absent w files)) by now apply absent_In.
  rewrite Habs in Hq. exact Hq.
Qed.

(** ** Traces *)

Lemma printed_app (t1 t2 : list event) :
  printed (t1 ++ t2) = (printed t1 ++ printed t2)%list.
Proof.
  induction t1 as [|ev t1 IH]; [reflexivity|].
  destruct ev; cbn [app printed]; rewrite IH; reflexivity.
Qed.

Lemma printed_exists (files : list string) : printed (map EvExists files) = [].
Proof. induction files; [reflexivity | assumption]. Qed.

Lemma printed_prints (lines : list string) : printed (map EvPrint lines) = lines.
Proof.
  induction lines as [|l lines IH]; [reflexivity|].
  cbn [map printed]. now rewrite IH.
Qed.

Lemma printed_check_events (c : config) (w : world) :
  printed (check_events c w) = [].
Proof. unfold check_events. cbn [printed]. apply printed_exists. Qed.

Lemma browser_opens_app (t1 t2 : list event) :
  browser_opens (t1 ++ t2) = (browser_opens t1 ++ browser_opens t2)%list.
Proof.
  induction t1 as [|ev t1 IH]; [reflexivity|].
  destruct ev; cbn [app browser_opens]; now rewrite IH.
Qed.

Lemma browser_opens_check_events (c : config) (w : world) :
  browser_opens (check_events c w) = [].
Proof.
  unfold check_events. cbn [browser_opens].
  induction (required_files c) as [|p l IH]; [reflexivity | exact IH].
Qed.

Lemma check_events_kind (c : config) (w : world) (ev : event) :
  In ev (check_events c w) ->
  ev = EvChdir (script_dir w) \/ exists p, In p (required_files c) /\ ev = EvExists p.
Proof.
  intros [H|H]; [now left|]. right.
  apply in_map_iff in H. destruct H as [p [Hp Hin]]. now exists p.
Qed.

(** ** The server phase, run *)

Lemma banner_run (c : config) (w : world) (s : state) :
  banner c w s = (Val tt, add_trace s (map EvPrint (banner_lines c w))).
Proof.
  unfold banner, print, bind, emit. rewrite !add_trace_add_trace. reflexivity.
Qed.

Lemma open_browser_run (c : config) (w : world) (s : state) :
  open_browser c w s =
  match browser_open w with
  | Returned _ => (Val tt, add_trace s [EvBrowserOpen (demo_url c)])
  | Raised e =>
      if is_Exception e
      then (Val tt, add_trace s (EvBrowserOpen (demo_url c) ::
                                 map EvPrint (browser_warning c e)))
      else (Exc e, add_trace s [EvBrowserOpen (demo_url c)])
  end.
Proof.
  unfold open_browser, try_except, webbrowser_open, bind, emit.
  destruct (browser_open w) as [b|e]; [reflexivity|].
  unfold raise, handle. cbn [find_handler].
  destruct (is_Exception e); [|reflexivity].
  rewrite for_each_print, add_trace_add_trace. reflexivity.
Qed.

Lemma serve_forever_run (w : world) (s : state) (v : TCPServer) :
  httpd s = Some v ->
  serve_forever w s =
  match serve_forever_raises w with
  | None => (Blocked InServeForever,
             set_httpd (add_trace s [EvServeForever]) (loop_entered v))
  | Some e => (Exc e, set_httpd (add_trace s [EvServeForever]) (loop_left v))
  end.
Proof.
  intros Hv. unfold serve_forever, read_httpd, bind. rewrite Hv.
  unfold emit. now destruct (serve_forever_raises w).
Qed.

Lemma try_block_run (c : config) (w : world) (s : state) :
  try_block c w s =
  match bind_raises w with
  | Some e => (Exc e, add_trace s [EvBind (HOST c) (PORT c)])
  | None =>
      let s1 := set_httpd (add_trace s (bootstrap_events c w))
                          (bound_server (HOST c) (PORT c)) in
      match browser_open w with
      | Returned _ => serve_forever w s1
      | Raised e =>
          if is_Exception e
          then serve_forever w (add_trace s1 (map EvPrint (browser_warning c e)))
          else (Exc e, s1)
      end
  end.
Proof.
  unfold try_block, TCPServer_new.
  unfold bind at 1. unfold bind at 1. unfold emit at 1.
  destruct (bind_raises w) as [e|]; [reflexivity|].
  unfold ret at 1. unfold bind at 1, assign_httpd at 1.
  unfold bind at 1. rewrite banner_run.
  unfold bind at 1. rewrite open_browser_run.
  unfold bootstrap_events.
  destruct (browser_open w) as [b|e]; [|destruct (is_Exception e)];
    cbv zeta; rewrite ?add_trace_set_httpd, ?add_trace_add_trace;
    cbn [app]; rewrite <- ?app_assoc; reflexivity.
Qed.

Lemma shutdown_run (s : state) :
  shutdown s =
  match httpd s with
  | None => (Exc (UnboundLocalError "httpd"), s)
  | Some v =>
      (if is_shut_down v then Val tt else Blocked InShutdown,
       set_httpd (add_trace s [EvShutdown]) (shutdown_requested v))
  end.
Proof.
  unfold shutdown, read_httpd, bind.
  destruct (httpd s) as [v|]; [|reflexivity].
  unfold emit, assign_httpd. now destruct (is_shut_down v).
Qed.

(** What the three [except] clauses do with an exception of the [try]
    block. *)
Lemma handle_run (c : config) (e : exn) (s : state) :
  handle (except_clauses c) e s =
  match e with
  | SystemExit _ => (Exc e, s)
  | KeyboardInterrupt =>
      match httpd s with
      | None => (Exc (UnboundLocalError "httpd"),
                 add_trace s [EvPrint stopped_by_user])
      | Some v =>
          (if is_shut_down v then Exc (SystemExit 0) else Blocked InShutdown,
           set_httpd (add_trace s [EvPrint stopped_by_user; EvShutdown])
                     (shutdown_requested v))
      end
  | OSError n _ =>
      (Exc (SystemExit 1),
       add_trace s (map EvPrint (if Z.eqb n 48 then port_in_use c
                                 else [error_starting e])))
  | UnboundLocalError _ | OtherException _ =>
      (Exc (SystemExit 1), add_trace s [EvPrint (unexpected_error e)])
  end.
Proof.
  destruct e as [code| |n str|x|str]; unfold handle, except_clauses;
    cbn [find_handler is_KeyboardInterrupt is_OSError is_Exception].
  - reflexivity.
  - unfold bind at 1. unfold print at 1, emit at 1.
    unfold bind at 1. rewrite shutdown_run.
    cbn [httpd add_trace].
    destruct (httpd s) as [v|]; [|reflexivity].
    rewrite add_trace_add_trace. now destruct (is_shut_down v).
  - unfold bind at 1. unfold errno_eq, errno_of.
    destruct (Z.eqb n 48).
    + rewrite for_each_print. reflexivity.
    + reflexivity.
  - reflexivity.
  - reflexivity.
Qed.

Lemma create_server_unfold (c : config) (w : world) (s : state) :
  create_server c w s =
  match try_block c w s with
  | (Exc e, s') => handle (except_clauses c) e s'
  | r => r
  end.
Proof. reflexivity. Qed.

(** ** Trace invariants *)

Section Preserves.

Variable P : event -> Prop.

Lemma preserves_ret {A} (a : A) : preserves P (ret a).
Proof. intros s H. exact H. Qed.

Lemma preserves_raise {A} (e : exn) : preserves P (@raise A e).
Proof. intros s H. exact H. Qed.

Lemma preserves_block {A} (b : block_site) : preserves P (@block A b).
Proof. intros s H. exact H. Qed.

Lemma preserves_bind {A B} (m : M A) (k : A -> M B) :
  preserves P m -> (forall a, preserves P (k a)) -> preserves P (bind m k).
Proof.
  intros Hm Hk s H. unfold bind. specialize (Hm s H).
  destruct (m s) as [[a|e|b] s']; cbn [snd] in *; try assumption.
  now apply Hk.
Qed.

Lemma preserves_emit (ev : event) : P ev -> preserves P (emit ev).
Proof.
  intros Hev s H. unfold emit, add_trace. cbn [snd trace].
  apply Forall_app. split; [assumption|]. now constructor.
Qed.

Lemma preserves_for_each {A} (xs : list A) (body : A -> M unit) :
  (forall x, In x xs -> preserves P (body x)) -> preserves P (for_each xs body).
Proof.
  induction xs as [|x xs IH]; intros H; cbn [for_each].
  - apply preserves_ret.
  - apply preserves_bind.
    + apply H. now left.
    + intros _. apply IH. intros y Hy. apply H. now right.
Qed.

Lemma preserves_handle {A} (hs : handlers A) (e : exn) :
  Forall (fun ch => forall e', preserves P (snd ch e')) hs ->
  preserves P (handle hs e).
Proof.
  unfold handle. induction hs as [|[cls h] hs IH]; intros H; cbn [find_handler].
  - apply preserves_raise.
  - inversion H as [|? ? Hh Hhs]; subst.
    destruct (cls e); [apply Hh | now apply IH].
Qed.

Lemma preserves_try_except {A} (body : M A) (hs : handlers A) :
  preserves P body ->
  Forall (fun ch => forall e, preserves P (snd ch e)) hs ->
  preserves P (try_except body hs).
Proof.
  intros Hb Hh s H. unfold try_except. specialize (Hb s H).
  destruct (body s) as [[a|e|b] s']; cbn [snd] in *; try assumption.
  now apply preserves_handle.
Qed.

Lemma preserves_get_missing_files : preserves P get_missing_files.
Proof. intros s H. exact H. Qed.

Lemma preserves_missing_files_append (p : string) :
  preserves P (missing_files_append p).
Proof. intros s H. exact H. Qed.

Lemma preserves_assign_httpd (v : TCPServer) : preserves P (assign_httpd v).
Proof. intros s H. exact H. Qed.

Lemma preserves_read_httpd : preserves P read_httpd.
Proof. intros s H. unfold read_httpd. now destruct (httpd s). Qed.

Lemma preserves_open_browser_returned (c : config) (w : world) (b : bool) :
  browser_open w = Returned b ->
  P (EvBrowserOpen (demo_url c)) ->
  preserves P (open_browser c w).
Proof.
  intros Hb Hev s H. rewrite open_browser_run, Hb.
  now apply (preserves_emit _ Hev).
Qed.
End Preserves.

(** Walks a statement, leaving one goal [P ev] for each external call. *)
Ltac walk :=
  repeat
    match goal with
    | |- preserves _ (bind _ _) => apply preserves_bind; [|intros ?]
    | |- preserves _ (ret _) => apply preserves_ret
    | |- preserves _ (raise _) => apply preserves_raise
    | |- preserves _ (block _) => apply preserves_block
    | |- preserves _ (emit _) => apply preserves_emit
    | |- preserves _ (for_each _ _) => apply preserves_for_each; intros ? ?
    | |- preserves _ (try_except _ _) =>
        apply preserves_try_except; [|repeat constructor; intros ?; cbn [snd]]
    | |- preserves _ get_missing_files => apply preserves_get_missing_files
    | |- preserves _ (missing_files_append _) => apply preserves_missing_files_append
    | |- preserves _ (assign_httpd _) => apply preserves_assign_httpd
    | |- preserves _ read_httpd => apply preserves_read_httpd
    | |- preserves _ (if ?b then _ else _) => destruct b
    | |- preserves _ (match ?x with _ => _ end) => destruct x
    end.

Ltac open_script :=
  unfold main_with, check_required_files, create_server, try_block,
    except_clauses, banner, os_chdir, Path_exists, TCPServer_new,
    serve_forever, shutdown, print, sys_exit.

(** Every existence check is for a required file and every browser call
    is for the demo page. *)
Lemma main_with_expected (c : config) (w : world) :
  preserves (expected_event c) (main_with c w).
Proof.
  open_script. unfold open_browser, webbrowser_open, print. walk.
  all: cbn [expected_event]; auto.
Qed.

(** With a browser call that returns, no line of the browser warning is
    printed. *)
Lemma main_with_no_warning (c : config) (w : world) (b : bool) :
  browser_open w = Returned b -> preserves no_warning (main_with c w).
Proof.
  intros Hb. open_script. walk.
  all: try (eapply preserves_open_browser_returned; [eassumption|]).
  all: cbn [no_warning]; try reflexivity; try exact I.
  all: match goal with H : In _ (port_in_use _) |- _ =>
         destruct H as [<-|[<-|[]]]; reflexivity end.
Qed.

(** ** Whole runs *)

Lemma run_after_check (c : config) (w : world) :
  chdir_raises w = None ->
  absent w (required_files c) = [] ->
  run_with c w =
  (outcome_of (fst (create_server c w (add_trace init (check_events c w)))),
   snd (create_server c w (add_trace init (check_events c w)))).
Proof.
  intros Hch Habs.
  now rewrite run_with_unfold, main_with_unfold, check_required_files_run, Hch, Habs.
Qed.

Lemma create_server_bind_raises (c : config) (w : world) (s : state) (e : exn) :
  bind_raises w = Some e ->
  create_server c w s =
  handle (except_clauses c) e (add_trace s [EvBind (HOST c) (PORT c)]).
Proof. intros Hb. now rewrite create_server_unfold, try_block_run, Hb. Qed.

Lemma create_server_served (c : config) (w : world) (s : state) :
  bind_raises w = None ->
  browser_passes w = true ->
  create_server c w s =
  let s' := add_trace s (bootstrap_events c w ++ warning_events c w ++
                         [EvServeForever]) in
  match serve_forever_raises w with
  | None =>
      (Blocked InServeForever,
       set_httpd s' (loop_entered (bound_server (HOST c) (PORT c))))
  | Some e =>
      handle (except_clauses c) e
        (set_httpd s' (loop_left (bound_server (HOST c) (PORT c))))
  end.
Proof.
  intros Hb Hp. rewrite create_server_unfold, try_block_run, Hb.
  unfold browser_passes, warning_events in *. cbv zeta.
  destruct (browser_open w) as [b|e].
  - erewrite serve_forever_run by reflexivity.
    rewrite add_trace_set_httpd, set_httpd_set_httpd, add_trace_add_trace.
    cbn [app]. now destruct (serve_forever_raises w).
  - rewrite Hp. erewrite serve_forever_run by reflexivity.
    rewrite !add_trace_set_httpd, set_httpd_set_httpd, !add_trace_add_trace.
    rewrite <- ?app_assoc.
    now destruct (serve_forever_raises w).
Qed.

Lemma handle_trace (c : config) (e : exn) (s : state) :
  exists t,
    trace (snd (handle (except_clauses c) e s)) = (trace s ++ t)%list /\
    forallb is_handler_event t = true.
Proof.
  rewrite handle_run. destruct e as [code| |n str|x|str].
  - exists []. cbn [snd]. now rewrite app_nil_r.
  - destruct (httpd s) as [v|]; eexists; split; reflexivity.
  - destruct (Z.eqb n 48); eexists; split; reflexivity.
  - eexists; split; reflexivity.
  - eexists; split; reflexivity.
Qed.

Lemma startup_ok_absent (c : config) (w : world) :
  startup_ok c w -> absent w (required_files c) = [].
Proof. intros [_ [H _]]. now apply absent_nil. Qed.

(** ** The preflight check *)

(** C3.  When at least one required file does not exist, the check fails:
    the list of missing files is the list of absent paths in the order of
    the required-files list, the console shows the header, one line per
    missing path and the closing line, the process exits with status 1, and
    no listener is bound: the trace holds no bind and [httpd] is unbound. *)
Theorem missing_files_abort (c : config) (w : world) :
  chdir_raises w = None ->
  (exists p, In p (required_files c) /\ path_exists w p = false) ->
  fst (run_with c w) = Exited 1 /\
  missing_files (snd (run_with c w)) = absent w (required_files c) /\
  (forall p, In p (missing_files (snd (run_with c w))) <->
             In p (required_files c) /\ path_exists w p = false) /\
  printed (trace (snd (run_with c w))) =
    missing_report (absent w (required_files c)) /\
  (forall p, In p (required_files c) -> path_exists w p = false ->
             In ("   - " ++ p) (printed (trace (snd (run_with c w))))) /\
  (forall host port, ~ In (EvBind host port) (trace (snd (run_with c w)))) /\
  httpd (snd (run_with c w)) = None.
Proof.
  intros Hch [p0 [Hin0 Hp0]].
  pose proof (absent_not_nil w _ p0 Hin0 Hp0) as Hne.
  pose proof (absent_In w (required_files c)) as Hmem.
  rewrite run_with_unfold, main_with_unfold, check_required_files_run, Hch.
  destruct (absent w (required_files c)) as [|m0 m]; [congruence|].
  cbn [fst snd outcome_of missing_files trace httpd].
  assert (Hpr : printed (check_events c w ++
                         map EvPrint (missing_report (m0 :: m))) =
                missing_report (m0 :: m)).
  { now rewrite printed_app, printed_check_events, printed_prints. }
  split; [reflexivity|]. split; [reflexivity|]. split; [exact Hmem|].
  split; [exact Hpr|]. split; [|split; [|reflexivity]].
  - intros p Hin Hp. rewrite Hpr. unfold missing_report. right.
    apply in_or_app. left.
    apply (in_map (fun file_path => "   - " ++ file_path)).
    apply Hmem. now split.
  - intros host port H. apply in_app_or in H. destruct H as [H|H].
    + apply check_events_kind in H. destruct H as [H|[p [_ H]]]; discriminate.
    + apply in_map_iff in H. destruct H as [x [Hx _]]. discriminate.
Qed.

Lemma missing_files_abort_witness :
  fst (run_with default_config app_js_missing) = Exited 1 /\
  missing_files (snd (run_with default_config app_js_missing)) = ["js/app.js"] /\
  printed (trace (snd (run_with default_config app_js_missing))) =
    missing_report ["js/app.js"].
Proof.
  destruct (missing_files_abort default_config app_js_missing)
    as [H1 [H2 [_ [H4 _]]]].
  - reflexivity.
  - exists "js/app.js". split; [right; left; reflexivity | reflexivity].
  - split; [exact H1|]. split; [exact H2 | exact H4].
Defined.

(** C4.  When every required file exists, the check succeeds with an empty
    list of missing files and the script goes on to create the server: the
    rest of [main] is the server phase, and the first call after the
    existence checks is the bind. *)
Theorem all_files_present_proceeds (c : config) (w : world) :
  chdir_raises w = None ->
  (forall p, In p (required_files c) -> path_exists w p = true) ->
  absent w (required_files c) = [] /\
  (exists s, check_required_files c w init = (Val tt, s) /\
             missing_files s = [] /\
             trace s = check_events c w /\
             main_with c w init = create_server c w s) /\
  (exists t, trace (snd (run_with c w)) =
             (check_events c w ++ EvBind (HOST c) (PORT c) :: t)%list).
Proof.
  intros Hch Hall. pose proof (absent_nil w _ Hall) as Habs.
  split; [exact Habs|]. split.
  - exists (add_trace init (check_events c w)).
    rewrite main_with_unfold, check_required_files_run, Hch, Habs.
    repeat split; reflexivity.
  - rewrite (run_after_check c w Hch Habs). cbn [snd].
    rewrite create_server_unfold, try_block_run.
    destruct (bind_raises w) as [e|].
    + destruct (handle_trace c e
                  (add_trace init (check_events c w ++
                                   [EvBind (HOST c) (PORT c)]))) as [t [Ht _]].
      exists t. rewrite <- add_trace_add_trace in Ht. rewrite Ht.
      cbn [add_trace trace init app]. now rewrite <- app_assoc.
    + cbv zeta.
      set (s1 := set_httpd _ _).
      assert (Hs1 : trace s1 = (check_events c w ++ bootstrap_events c w)%list)
        by reflexivity.
      assert (Hserve : forall s2 t2,
                 httpd s2 = Some (bound_server (HOST c) (PORT c)) ->
                 trace s2 = (check_events c w ++ bootstrap_events c w ++ t2)%list ->
                 exists t, trace (snd (match serve_forever w s2 with
                                       | (Exc e, s') => handle (except_clauses c) e s'
                                       | r => r
                                       end)) =
                           (check_events c w ++ EvBind (HOST c) (PORT c) :: t)%list).
      { intros s2 t2 Hv Ht2. rewrite (serve_forever_run w s2 _ Hv).
        destruct (serve_forever_raises w) as [e|].
        - destruct (handle_trace c e
                      (set_httpd (add_trace s2 [EvServeForever])
                         (loop_left (bound_server (HOST c) (PORT c)))))
            as [t [Ht _]].
          rewrite Ht. cbn [set_httpd add_trace trace]. rewrite Ht2.
          unfold bootstrap_events. cbn [app]. rewrite <- !app_assoc.
          cbn [app]. eexists. reflexivity.
        - cbn [snd set_httpd add_trace trace]. rewrite Ht2.
          unfold bootstrap_events. cbn [app]. rewrite <- !app_assoc.
          cbn [app]. eexists. reflexivity. }
      destruct (browser_open w) as [b|e].
      * apply (Hserve s1 []); [reflexivity|]. now rewrite app_nil_r.
      * destruct (is_Exception e).
        -- apply (Hserve _ (map EvPrint (browser_warning c e))); [reflexivity|].
           cbn [add_trace trace]. rewrite Hs1. now rewrite <- app_assoc.
        -- destruct (handle_trace c e s1) as [t [Ht _]].
           rewrite Ht, Hs1. unfold bootstrap_events. cbn [app].
           rewrite <- !app_assoc. cbn [app]. eexists. reflexivity.
Qed.

Lemma all_files_present_proceeds_witness :
  absent fair_weather (required_files default_config) = [] /\
  exists t, trace (snd (run fair_weather)) =
            (check_events default_config fair_weather ++
             EvBind "localhost" 8000 :: t)%list.
Proof.
  destruct (all_files_present_proceeds default_config fair_weather)
    as [H1 [_ H3]].
  - reflexivity.
  - intros p _. reflexivity.
  - split; [exact H1 | exact H3].
Defined.

(** ** Interrupts *)

Lemma run_served (c : config) (w : world) :
  startup_ok c w ->
  browser_passes w = true ->
  run_with c w =
  let s' := add_trace init (check_events c w ++ bootstrap_events c w ++
                            warning_events c w ++ [EvServeForever]) in
  match serve_forever_raises w with
  | None =>
      (Running InServeForever,
       set_httpd s' (loop_entered (bound_server (HOST c) (PORT c))))
  | Some e =>
      (outcome_of (fst (handle (except_clauses c) e
         (set_httpd s' (loop_left (bound_server (HOST c) (PORT c)))))),
       snd (handle (except_clauses c) e
         (set_httpd s' (loop_left (bound_server (HOST c) (PORT c))))))
  end.
Proof.
  intros Hok Hp. pose proof (startup_ok_absent c w Hok) as Habs.
  destruct Hok as [Hch [_ Hb]].
  rewrite (run_after_check c w Hch Habs), (create_server_served c w _ Hb Hp).
  cbv zeta. rewrite add_trace_add_trace.
  now destruct (serve_forever_raises w).
Qed.

(** C2.  An interrupt received in the serve loop ends the run in order:
    the loop is left, the "stopped by user" line is printed, [shutdown]
    is called and returns, and the process exits with status 0.  After
    that no connection is accepted and the port is no longer held; as long
    as no interrupt comes, the same run accepts connections and holds the
    port. *)
Theorem interrupt_while_serving_exits_0 (c : config) (w : world) :
  startup_ok c w ->
  browser_passes w = true ->
  serve_forever_raises w = Some KeyboardInterrupt ->
  fst (run_with c w) = Exited 0 /\
  exit_status (fst (run_with c w)) = Some 0%Z /\
  trace (snd (run_with c w)) =
    (check_events c w ++ bootstrap_events c w ++ warning_events c w ++
     [EvServeForever; EvPrint stopped_by_user; EvShutdown])%list /\
  (exists v, httpd (snd (run_with c w)) = Some v /\
             is_shut_down v = true /\ shutdown_request v = true) /\
  accepting (fst (run_with c w)) = false /\
  port_held (run_with c w) = false /\
  accepting (fst (run_with c (with_serve w None))) = true /\
  port_held (run_with c (with_serve w None)) = true.
Proof.
  intros Hok Hp Hs.
  assert (Hok' : startup_ok c (with_serve w None)) by exact Hok.
  assert (Hp' : browser_passes (with_serve w None) = true) by exact Hp.
  rewrite (run_served c w Hok Hp), Hs.
  rewrite (run_served c (with_serve w None) Hok' Hp').
  cbv zeta. rewrite handle_run.
  cbn [httpd set_httpd loop_left is_shut_down serve_forever_raises with_serve].
  cbn [fst snd outcome_of exit_status accepting port_held alive andb].
  split; [reflexivity|]. split; [reflexivity|]. split.
  - cbn [trace set_httpd add_trace init app]. rewrite <- !app_assoc.
    reflexivity.
  - split; [eexists; repeat split; reflexivity|].
    repeat split; reflexivity.
Qed.

Lemma interrupt_while_serving_exits_0_witness :
  fst (run interrupted) = Exited 0 /\ port_held (run interrupted) = false.
Proof.
  destruct (interrupt_while_serving_exits_0 default_config interrupted)
    as [H1 [_ [_ [_ [_ [H6 _]]]]]].
  - split; [reflexivity|]. split; [intros p _; reflexivity | reflexivity].
  - reflexivity.
  - reflexivity.
  - split; [exact H1 | exact H6].
Defined.

(** C8.  An interrupt that arrives while the server object is being
    constructed reaches the [except KeyboardInterrupt] clause with [httpd]
    unbound: the clause prints its line, the call of [httpd.shutdown()]
    raises [UnboundLocalError], nothing catches it, and the process ends
    with a traceback and status 1, not 0. *)
Theorem interrupt_during_bind_traceback (c : config) (w : world) :
  chdir_raises w = None ->
  (forall p, In p (required_files c) -> path_exists w p = true) ->
  bind_raises w = Some KeyboardInterrupt ->
  fst (run_with c w) = Traceback (UnboundLocalError "httpd") /\
  exit_status (fst (run_with c w)) = Some 1%Z /\
  exit_status (fst (run_with c w)) <> Some 0%Z /\
  trace (snd (run_with c w)) =
    (check_events c w ++
     [EvBind (HOST c) (PORT c); EvPrint stopped_by_user])%list /\
  httpd (snd (run_with c w)) = None /\
  ~ In EvShutdown (trace (snd (run_with c w))).
Proof.
  intros Hch Hall Hb. pose proof (absent_nil w _ Hall) as Habs.
  rewrite (run_after_check c w Hch Habs).
  rewrite (create_server_bind_raises c w _ _ Hb), handle_run.
  cbn [httpd add_trace init fst snd outcome_of exit_status trace app].
  split; [reflexivity|]. split; [reflexivity|].
  split; [discriminate|]. split; [now rewrite <- app_assoc|].
  split; [reflexivity|].
  intros H. rewrite <- app_assoc in H. apply in_app_or in H.
  destruct H as [H|H].
  - apply check_events_kind in H. destruct H as [H|[p [_ H]]]; discriminate.
  - destruct H as [H|[H|[]]]; discriminate.
Qed.

Lemma interrupt_during_bind_traceback_witness :
  fst (run interrupted_in_bind) = Traceback (UnboundLocalError "httpd") /\
  exit_status (fst (run interrupted_in_bind)) <> Some 0%Z.
Proof.
  destruct (interrupt_during_bind_traceback default_config interrupted_in_bind)
    as [H1 [_ [H3 _]]].
  - reflexivity.
  - intros p _. reflexivity.
  - reflexivity.
  - split; [exact H1 | exact H3].
Defined.

(** ** The browser *)

Lemma launch_failed_passes (w : world) :
  launch_failed w = true -> browser_passes w = true.
Proof.
  unfold launch_failed, browser_passes. now destruct (browser_open w).
Qed.

Lemma run_served_trace (c : config) (w : world) :
  startup_ok c w ->
  browser_passes w = true ->
  exists t,
    trace (snd (run_with c w)) =
      (check_events c w ++ bootstrap_events c w ++ warning_events c w ++
       EvServeForever :: t)%list /\
    forallb is_handler_event t = true.
Proof.
  intros Hok Hp. rewrite (run_served c w Hok Hp). cbv zeta.
  destruct (serve_forever_raises w) as [e|].
  - match goal with |- context [handle _ e ?s] =>
      destruct (handle_trace c e s) as [t [Ht Hev]] end.
    exists t. split; [|exact Hev]. cbn [snd]. rewrite Ht.
    cbn [trace set_httpd add_trace init app]. now rewrite <- !app_assoc.
  - exists []. split; reflexivity.
Qed.

(** C5, as the code has it.  A browser call that fails, by raising an
    exception of class [Exception] or by returning false, never stops the
    server: the serve loop is entered right after, and with no interrupt
    the process keeps accepting connections.  When the call raised, the
    two lines of the warning, the second with the manual-open instruction,
    are printed between the call and the serve loop; when it returned
    false, nothing is. *)
Theorem browser_failure_not_fatal (c : config) (w : world) :
  startup_ok c w ->
  launch_failed w = true ->
  (exists t, trace (snd (run_with c w)) =
             (check_events c w ++ bootstrap_events c w ++
              warning_events c w ++ EvServeForever :: t)%list) /\
  (forall e, browser_open w = Raised e ->
     warning_events c w =
       [ EvPrint ("⚠️  Could not auto-open browser: " ++ str_of_exn e);
         EvPrint ("   Please manually open " ++ base_url c ++
                  "/ in your browser") ]) /\
  (browser_open w = Returned false -> warning_events c w = []) /\
  (serve_forever_raises w = None ->
     fst (run_with c w) = Running InServeForever /\
     accepting (fst (run_with c w)) = true).
Proof.
  intros Hok Hf. pose proof (launch_failed_passes w Hf) as Hp.
  split; [|split; [|split]].
  - destruct (run_served_trace c w Hok Hp) as [t [Ht _]]. now exists t.
  - intros e He. unfold warning_events, launch_failed in *.
    rewrite He in *. now rewrite Hf.
  - intros He. unfold warning_events. now rewrite He.
  - intros Hs. rewrite (run_served c w Hok Hp), Hs. split; reflexivity.
Qed.

Lemma browser_failure_not_fatal_witness :
  exists t, trace (snd (run browser_raises)) =
            (check_events default_config browser_raises ++
             bootstrap_events default_config browser_raises ++
             warning_events default_config browser_raises ++
             EvServeForever :: t)%list.
Proof.
  destruct (browser_failure_not_fatal default_config browser_raises)
    as [H1 _].
  - split; [reflexivity|]. split; [intros p _; reflexivity | reflexivity].
  - reflexivity.
  - exact H1.
Defined.

(** C5, as stated, fails: with no browser to launch, [webbrowser.open]
    returns false; the launch has failed, yet no line of the warning is
    printed. *)
Lemma no_browser_no_warning :
  launch_failed no_browser = true /\
  filter is_warning_line (printed (trace (snd (run no_browser)))) = [] /\
  In EvServeForever (trace (snd (run no_browser))).
Proof.
  split; [reflexivity|]. split; [vm_compute; reflexivity|].
  vm_compute. tauto.
Qed.

Lemma no_warning_printed (t : list event) :
  Forall no_warning t ->
  forall line, In line (printed t) -> is_warning_line line = false.
Proof.
  induction 1 as [|ev t Hev _ IH]; intros line Hin; [contradiction|].
  destruct ev; cbn [printed] in Hin; try (now apply IH).
  destruct Hin as [<-|Hin]; [exact Hev | now apply IH].
Qed.

Lemma prefix_append (p s : string) : prefix p (p ++ s) = true.
Proof.
  induction p as [|a p IH]; cbn [prefix append]; [now destruct s|].
  now destruct (ascii_dec a a).
Qed.

Lemma browser_warning_lines (c : config) (e : exn) (line : string) :
  In line (browser_warning c e) -> is_warning_line line = true.
Proof.
  unfold is_warning_line.
  intros [<-|[<-|[]]]; rewrite prefix_append; [reflexivity|].
  now rewrite orb_true_r.
Qed.

Lemma run_with_browser_result (c : config) (w : world) (b b' : bool) :
  browser_open w = Returned b ->
  run_with c w = run_with c (with_browser w (Returned b')).
Proof.
  intros Hb. rewrite !run_with_unfold, !main_with_unfold.
  rewrite !check_required_files_run.
  change (chdir_raises (with_browser w (Returned b'))) with (chdir_raises w).
  change (absent (with_browser w (Returned b')) (required_files c))
    with (absent w (required_files c)).
  destruct (chdir_raises w); [reflexivity|].
  destruct (absent w (required_files c)); [|reflexivity].
  rewrite !create_server_unfold, !try_block_run.
  change (bind_raises (with_browser w (Returned b'))) with (bind_raises w).
  destruct (bind_raises w); [reflexivity|].
  rewrite Hb. reflexivity.
Qed.

(** C10.  When [webbrowser.open] reports failure by returning false, no
    line of the warning is printed anywhere in the run, and the run is the
    one of a successful launch: after a successful startup the serve loop
    is entered immediately after the browser call. *)
Theorem false_result_no_warning (w : world) :
  browser_open w = Returned false ->
  (forall line, In line (printed (trace (snd (run w)))) ->
                is_warning_line line = false) /\
  (forall e line, In line (browser_warning default_config e) ->
                  ~ In line (printed (trace (snd (run w))))) /\
  run w = run (with_browser w (Returned true)) /\
  (startup_ok default_config w ->
   exists t, trace (snd (run w)) =
             (check_events default_config w ++
              bootstrap_events default_config w ++ EvServeForever :: t)%list).
Proof.
  intros Hb.
  assert (Hnw : forall line, In line (printed (trace (snd (run w)))) ->
                             is_warning_line line = false).
  { apply no_warning_printed. unfold run. rewrite run_with_unfold. cbn [snd].
    apply (main_with_no_warning default_config w false Hb). constructor. }
  split; [exact Hnw|]. split; [|split].
  - intros e line Hin Hpr. apply Hnw in Hpr.
    rewrite (browser_warning_lines _ _ _ Hin) in Hpr. discriminate.
  - exact (run_with_browser_result default_config w false true Hb).
  - intros Hok.
    assert (Hp : browser_passes w = true)
      by (unfold browser_passes; now rewrite Hb).
    destruct (run_served_trace default_config w Hok Hp) as [t [Ht _]].
    exists t. unfold run. rewrite Ht. unfold warning_events. now rewrite Hb.
Qed.

Lemma false_result_no_warning_witness :
  run no_browser = run (with_browser no_browser (Returned true)).
Proof.
  destruct (false_result_no_warning no_browser) as [_ [_ [H _]]].
  - reflexivity.
  - exact H.
Defined.

Lemma forallb_weaken {A} (f g : A -> bool) (l : list A) :
  (forall x, f x = true -> g x = true) ->
  forallb f l = true -> forallb g l = true.
Proof.
  intros Hfg. rewrite !forallb_forall. intros H x Hx. apply Hfg. now apply H.
Qed.

Lemma warning_events_after (c : config) (w : world) :
  forallb is_after_event (warning_events c w) = true.
Proof.
  unfold warning_events. destruct (browser_open w) as [b|e]; [reflexivity|].
  now destruct (is_Exception e).
Qed.

Lemma run_bootstrapped (c : config) (w : world) :
  startup_ok c w ->
  exists after,
    trace (snd (run_with c w)) =
      (check_events c w ++ bootstrap_events c w ++ after)%list /\
    forallb is_after_event after = true.
Proof.
  intros Hok.
  assert (Hweak : forall t, forallb is_handler_event t = true ->
                            forallb is_after_event t = true).
  { intros t. apply forallb_weaken. now intros []. }
  destruct (browser_passes w) eqn:Hp.
  - destruct (run_served_trace c w Hok Hp) as [t [Ht Hev]].
    exists (warning_events c w ++ EvServeForever :: t)%list.
    split; [exact Ht|].
    rewrite forallb_app, warning_events_after. cbn [forallb is_after_event andb].
    now apply Hweak.
  - pose proof (startup_ok_absent c w Hok) as Habs.
    destruct Hok as [Hch [_ Hb]].
    rewrite (run_after_check c w Hch Habs), create_server_unfold, try_block_run, Hb.
    unfold browser_passes in Hp. cbv zeta.
    destruct (browser_open w) as [b|e]; [discriminate|]. rewrite Hp.
    match goal with |- context [handle _ e ?s] =>
      destruct (handle_trace c e s) as [t [Ht Hev]] end.
    exists t. split; [|now apply Hweak]. cbn [snd]. rewrite Ht.
    cbn [trace set_httpd add_trace init app]. now rewrite <- app_assoc.
Qed.

(** C7.  In a successful startup the browser is called once, for
    [http://localhost:8000/demo.html]: the call comes after the bind and
    the banner, no serve loop has been entered before it, and what follows
    it holds no further browser call. *)
Theorem browser_opened_after_bind_before_serve (w : world) :
  startup_ok default_config w ->
  exists after,
    trace (snd (run w)) =
      ((check_events default_config w ++
        EvBind "localhost" 8000 ::
        map EvPrint (banner_lines default_config w)) ++
       EvBrowserOpen "http://localhost:8000/demo.html" :: after)%list /\
    ~ In EvServeForever
        (check_events default_config w ++
         EvBind "localhost" 8000 ::
         map EvPrint (banner_lines default_config w)) /\
    (forall url, ~ In (EvBrowserOpen url)
        (check_events default_config w ++
         EvBind "localhost" 8000 ::
         map EvPrint (banner_lines default_config w))) /\
    (forall url, ~ In (EvBrowserOpen url) after) /\
    browser_opens (trace (snd (run w))) = ["http://localhost:8000/demo.html"].
Proof.
  intros Hok. destruct (run_bootstrapped default_config w Hok) as [after [Ht Hev]].
  assert (Hbefore : forall ev,
            In ev (check_events default_config w ++
                   EvBind "localhost" 8000 ::
                   map EvPrint (banner_lines default_config w)) ->
            browser_opens [ev] = [] /\ ev <> EvServeForever).
  { intros ev H. apply in_app_or in H. destruct H as [H|[<-|H]].
    - apply check_events_kind in H.
      destruct H as [->|[p [_ ->]]]; split; (reflexivity || discriminate).
    - split; (reflexivity || discriminate).
    - apply in_map_iff in H. destruct H as [x [<- _]].
      split; (reflexivity || discriminate). }
  assert (Hafter : forall url, ~ In (EvBrowserOpen url) after).
  { intros url H. rewrite forallb_forall in Hev. apply Hev in H. discriminate. }
  assert (Hnone : forall t, (forall ev, In ev t -> browser_opens [ev] = []) ->
                            browser_opens t = []).
  { induction t as [|ev t IH]; intros H; [reflexivity|].
    pose proof (H ev (or_introl eq_refl)) as Hev0.
    destruct ev; cbn [browser_opens] in *; try discriminate;
      apply IH; intros ev' Hin; apply H; now right. }
  exists after. split; [|split; [|split; [|split]]].
  - unfold run. rewrite Ht. unfold bootstrap_events.
    change (HOST default_config) with "localhost".
    change (PORT default_config) with 8000%N.
    change (demo_url default_config) with "http://localhost:8000/demo.html".
    rewrite <- !app_assoc. cbn [app]. rewrite <- !app_assoc. reflexivity.
  - intros H. now apply Hbefore in H.
  - intros url H. apply Hbefore in H. destruct H as [H _]. discriminate.
  - exact Hafter.
  - unfold run. rewrite Ht. unfold bootstrap_events.
    rewrite !browser_opens_app.
    rewrite (Hnone (check_events default_config w)).
    + cbn [browser_opens app]. rewrite browser_opens_app.
      rewrite (Hnone (map EvPrint (banner_lines default_config w))).
      * rewrite (Hnone after); [reflexivity|].
        intros ev Hin. rewrite forallb_forall in Hev. apply Hev in Hin.
        now destruct ev.
      * intros ev Hin. apply (Hbefore ev). apply in_or_app. right. now right.
    + intros ev Hin. apply (Hbefore ev). apply in_or_app. now left.
Qed.

Lemma browser_opened_after_bind_before_serve_witness :
  browser_opens (trace (snd (run interrupted))) =
    ["http://localhost:8000/demo.html"].
Proof.
  destruct (browser_opened_after_bind_before_serve interrupted)
    as [after [_ [_ [_ [_ H]]]]].
  - split; [reflexivity|]. split; [intros p _; reflexivity | reflexivity].
  - exact H.
Defined.

(** C9.  The check looks for [index.html] and [js/app.js] only, while the
    browser is sent to [demo.html]: no run ever asks whether [demo.html]
    exists, a run does not depend on it, and when it is missing the
    browser is sent there all the same. *)
Theorem demo_page_not_checked :
  required_files default_config = ["index.html"; "js/app.js"] /\
  ~ In "demo.html" (required_files default_config) /\
  demo_url default_config = "http://localhost:8000/" ++ "demo.html" /\
  (forall w, ~ In (EvExists "demo.html") (trace (snd (run w)))) /\
  (forall w b,
     run (with_exists w (fun p => if String.eqb p "demo.html" then b
                                  else path_exists w p)) = run w) /\
  path_exists demo_missing "demo.html" = false /\
  browser_opens (trace (snd (run demo_missing))) =
    ["http://localhost:8000/demo.html"].
Proof.
  split; [reflexivity|]. split.
  { intros [H|[H|[]]]; discriminate. }
  split; [reflexivity|]. split; [|split; [|split; reflexivity]].
  - intros w H. unfold run in H. rewrite run_with_unfold in H. cbn [snd] in H.
    pose proof (main_with_expected default_config w init (Forall_nil _)) as Hall.
    rewrite Forall_forall in Hall. apply Hall in H.
    destruct H as [H|[H|[]]]; discriminate.
  - intros w b. unfold run. rewrite !run_with_unfold, !main_with_unfold.
    rewrite !check_required_files_run. reflexivity.
Qed.

(** ** Fatal conditions *)

Lemma handle_Exception (c : config) (e : exn) (s : state) :
  is_Exception e = true ->
  handle (except_clauses c) e s =
  (Exc (SystemExit 1), add_trace s (map EvPrint (error_report c e))).
Proof.
  intros He. rewrite handle_run.
  destruct e as [code| |n str|x|str]; try discriminate; reflexivity.
Qed.

Lemma error_report_not_nil (c : config) (e : exn) : error_report c e <> [].
Proof.
  destruct e as [code| |n str|x|str]; cbn [error_report]; try discriminate.
  destruct (Z.eqb n 48); discriminate.
Qed.

(** C6, as the code has it.  The conditions the script handles itself—
    required files missing, an exception of class [Exception] from the
    constructor of the server or from the serve loop—end with their
    report as the last thing printed and exit status 1; no exception
    reaches the interpreter. *)
Theorem handled_conditions_exit_1 (c : config) (w : world) (report : list string) :
  chdir_raises w = None ->
  fatal c w report ->
  fst (run_with c w) = Exited 1 /\
  exit_status (fst (run_with c w)) = Some 1%Z /\
  report <> [] /\
  (exists t, trace (snd (run_with c w)) = (t ++ map EvPrint report)%list) /\
  (forall e, fst (run_with c w) <> Traceback e).
Proof.
  intros Hch Hf.
  assert (H : fst (run_with c w) = Exited 1 /\ report <> [] /\
              exists t, trace (snd (run_with c w)) = (t ++ map EvPrint report)%list).
  { destruct Hf as [Hne | e Habs Hb He | e Habs Hb Hp Hs He].
    - rewrite run_with_unfold, main_with_unfold, check_required_files_run, Hch.
      destruct (absent w (required_files c)) as [|m0 m]; [congruence|].
      split; [reflexivity|]. split; [discriminate|].
      now exists (check_events c w).
    - rewrite (run_after_check c w Hch Habs).
      rewrite (create_server_bind_raises c w _ _ Hb), (handle_Exception c e _ He).
      split; [reflexivity|]. split; [apply error_report_not_nil|].
      eexists. reflexivity.
    - rewrite (run_after_check c w Hch Habs).
      rewrite (create_server_served c w _ Hb Hp), Hs. cbv zeta.
      rewrite (handle_Exception c e _ He).
      split; [reflexivity|]. split; [apply error_report_not_nil|].
      eexists. reflexivity. }
  destruct H as [H1 [H2 H3]]. rewrite H1.
  split; [reflexivity|]. split; [reflexivity|]. split; [exact H2|].
  split; [exact H3 | discriminate].
Qed.

Lemma handled_conditions_exit_1_witness :
  fst (run (port_occupied Darwin)) = Exited 1 /\
  exists t, trace (snd (run (port_occupied Darwin))) =
            (t ++ map EvPrint (port_in_use default_config))%list.
Proof.
  destruct (handled_conditions_exit_1 default_config (port_occupied Darwin)
              (error_report default_config (address_in_use Darwin)))
    as [H1 [_ [_ [H4 _]]]].
  - reflexivity.
  - apply fatal_bind; reflexivity.
  - split; [exact H1 | exact H4].
Defined.

(** C6, as stated, fails: the change of directory is made before the
    [try]; when it raises, the exception reaches the interpreter as it is,
    and the script prints nothing. *)
Lemma chdir_failure_not_caught :
  fst (run chdir_denied) =
    Traceback (OSError 13
      "[Errno 13] Permission denied: '/home/user/modeli-mundi-3d'") /\
  printed (trace (snd (run chdir_denied))) = [] /\
  trace (snd (run chdir_denied)) = [EvChdir "/home/user/modeli-mundi-3d"].
Proof. repeat split; reflexivity. Qed.

(** ** The port in use *)

(** Whatever error the constructor of the server raises with an [errno],
    the run ends with status 1 and without a browser call; the port-in-use
    lines are printed exactly when the number is 48. *)
Lemma bind_OSError_run (c : config) (w : world) (n : Z) (str : string) :
  chdir_raises w = None ->
  absent w (required_files c) = [] ->
  bind_raises w = Some (OSError n str) ->
  fst (run_with c w) = Exited 1 /\
  printed (trace (snd (run_with c w))) =
    (if Z.eqb n 48 then port_in_use c else [error_starting (OSError n str)]) /\
  browser_opens (trace (snd (run_with c w))) = [].
Proof.
  intros Hch Habs Hb.
  rewrite (run_after_check c w Hch Habs).
  rewrite (create_server_bind_raises c w _ _ Hb), handle_run.
  cbn [fst snd outcome_of add_trace trace init app].
  split; [reflexivity|].
  rewrite !printed_app, !browser_opens_app, printed_check_events,
    browser_opens_check_events, printed_prints.
  cbn [printed browser_opens app]. split; [reflexivity|].
  now destruct (Z.eqb n 48).
Qed.

(** C1 at the input where it fails.  On Linux [EADDRINUSE] is 98, not 48:
    with the port held by another listener the run ends with status 1 and
    without a browser call, but the line printed is the generic one; the
    port-in-use lines are not.  On macOS, where the number is 48, they
    are. *)
Theorem port_in_use_on_linux_reported_generically :
  bind_raises (port_occupied Linux) =
    Some (OSError 98 "[Errno 98] Address already in use") /\
  fst (run (port_occupied Linux)) = Exited 1 /\
  printed (trace (snd (run (port_occupied Linux)))) =
    ["❌ Error starting server: [Errno 98] Address already in use"] /\
  (forall line, In line (port_in_use default_config) ->
                ~ In line (printed (trace (snd (run (port_occupied Linux)))))) /\
  browser_opens (trace (snd (run (port_occupied Linux)))) = [] /\
  printed (trace (snd (run (port_occupied Darwin)))) =
    [ "❌ Error: Port 8000 is already in use.";
      "   Try using a different port or stop the other server." ].
Proof.
  split; [reflexivity|]. split; [reflexivity|]. split; [reflexivity|].
  split; [|split; reflexivity].
  intros line [<-|[<-|[]]] [H|[]]; discriminate.
Qed.

(** * Further properties of [main] *)

(** ** The summaries are what a run computes *)

Lemma handle_table (c : config) (e : exn) (s : state) (server : option bool) :
  match server with
  | None => httpd s = None
  | Some b => exists v, httpd s = Some v /\ is_shut_down v = b
  end ->
  outcome_of (fst (handle (except_clauses c) e s)) = handled e server /\
  trace (snd (handle (except_clauses c) e s)) =
    (trace s ++ handler_events c e server)%list.
Proof.
  intros Hs. rewrite handle_run.
  destruct e as [code| |n str|x|str]; cbn [handled handler_events error_report].
  - cbn [fst snd outcome_of]. now rewrite app_nil_r.
  - destruct server as [b|].
    + destruct Hs as [v [Hv Hb]]. rewrite Hv, Hb. now destruct b.
    + rewrite Hs. split; reflexivity.
  - split; reflexivity.
  - split; reflexivity.
  - split; reflexivity.
Qed.

Lemma run_table (c : config) (w : world) :
  fst (run_with c w) = outcome_table c w /\
  trace (snd (run_with c w)) = trace_table c w.
Proof.
  unfold outcome_table, trace_table.
  destruct (chdir_raises w) as [e0|] eqn:Hch.
  { rewrite run_with_unfold, main_with_unfold, check_required_files_run, Hch.
    split; reflexivity. }
  destruct (absent w (required_files c)) as [|m0 m] eqn:Habs.
  2:{ rewrite run_with_unfold, main_with_unfold, check_required_files_run,
        Hch, Habs. split; reflexivity. }
  rewrite (run_after_check c w Hch Habs). cbn [fst snd].
  destruct (bind_raises w) as [e|] eqn:Hb.
  { rewrite (create_server_bind_raises c w _ _ Hb).
    destruct (handle_table c e
                (add_trace (add_trace init (check_events c w))
                   [EvBind (HOST c) (PORT c)]) None eq_refl) as [H1 H2].
    rewrite H1, H2. split; [reflexivity|].
    cbn [trace add_trace init app]. now rewrite <- app_assoc. }
  destruct (browser_passes w) eqn:Hp.
  - rewrite (create_server_served c w _ Hb Hp). cbv zeta.
    destruct (serve_forever_raises w) as [e|].
    + match goal with |- context [handle _ e ?s] =>
        destruct (handle_table c e s (Some true)) as [H1 H2] end.
      { eexists. split; reflexivity. }
      rewrite H1, H2. split; [reflexivity|].
      cbn [trace set_httpd add_trace init app]. now rewrite <- !app_assoc.
    + split; reflexivity.
  - rewrite create_server_unfold, try_block_run, Hb. cbv zeta.
    unfold browser_passes in Hp.
    destruct (browser_open w) as [b|e]; [discriminate|]. rewrite Hp.
    match goal with |- context [handle _ e ?s] =>
      destruct (handle_table c e s (Some false)) as [H1 H2] end.
    { eexists. split; reflexivity. }
    rewrite H1, H2. split; [reflexivity|].
    cbn [trace set_httpd add_trace init app]. now rewrite <- !app_assoc.
Qed.

Lemma startup_ok_iff (c : config) (w : world) :
  startup_ok c w <->
  chdir_raises w = None /\ absent w (required_files c) = [] /\
  bind_raises w = None.
Proof.
  unfold startup_ok. split; intros [H1 [H2 H3]]; repeat split; try assumption.
  - now apply absent_nil.
  - intros p Hin. destruct (path_exists w p) eqn:Hp; [reflexivity|].
    exfalso. exact (absent_not_nil w _ p Hin Hp H2).
Qed.

(** ** Counting calls in a trace *)

Lemma binds_app (t1 t2 : list event) :
  binds (t1 ++ t2) = (binds t1 ++ binds t2)%list.
Proof.
  induction t1 as [|ev t1 IH]; [reflexivity|].
  destruct ev; cbn [app binds]; now rewrite IH.
Qed.

Lemma shutdowns_app (t1 t2 : list event) :
  shutdowns (t1 ++ t2) = (shutdowns t1 + shutdowns t2)%nat.
Proof.
  induction t1 as [|ev t1 IH]; [reflexivity|].
  destruct ev; cbn [app shutdowns]; now rewrite IH.
Qed.

Lemma checked_app (t1 t2 : list event) :
  checked (t1 ++ t2) = (checked t1 ++ checked t2)%list.
Proof.
  induction t1 as [|ev t1 IH]; [reflexivity|].
  destruct ev; cbn [app checked]; now rewrite IH.
Qed.

Lemma binds_prints (lines : list string) : binds (map EvPrint lines) = [].
Proof. induction lines; [reflexivity | assumption]. Qed.

Lemma shutdowns_prints (lines : list string) : shutdowns (map EvPrint lines) = O.
Proof. induction lines; [reflexivity | assumption]. Qed.

Lemma checked_prints (lines : list string) : checked (map EvPrint lines) = [].
Proof. induction lines; [reflexivity | assumption]. Qed.

Lemma browser_opens_prints (lines : list string) :
  browser_opens (map EvPrint lines) = [].
Proof. induction lines; [reflexivity | assumption]. Qed.

Lemma binds_check_events (c : config) (w : world) : binds (check_events c w) = [].
Proof.
  unfold check_events. cbn [binds].
  induction (required_files c) as [|p l IH]; [reflexivity | exact IH].
Qed.

Lemma shutdowns_check_events (c : config) (w : world) :
  shutdowns (check_events c w) = O.
Proof.
  unfold check_events. cbn [shutdowns].
  induction (required_files c) as [|p l IH]; [reflexivity | exact IH].
Qed.

Lemma checked_check_events (c : config) (w : world) :
  checked (check_events c w) = required_files c.
Proof.
  unfold check_events. cbn [checked].
  induction (required_files c) as [|p l IH]; [reflexivity|].
  cbn [map checked]. now rewrite IH.
Qed.

Lemma binds_exists (files : list string) : binds (map EvExists files) = [].
Proof. induction files; [reflexivity | assumption]. Qed.

Lemma shutdowns_exists (files : list string) :
  shutdowns (map EvExists files) = O.
Proof. induction files; [reflexivity | assumption]. Qed.

Lemma browser_opens_exists (files : list string) :
  browser_opens (map EvExists files) = [].
Proof. induction files; [reflexivity | assumption]. Qed.

Lemma checked_exists (files : list string) :
  checked (map EvExists files) = files.
Proof.
  induction files as [|p l IH]; [reflexivity|]. cbn [map checked]. now rewrite IH.
Qed.

Create Rewrite HintDb calls.

#[local] Hint Rewrite
  binds_app shutdowns_app checked_app browser_opens_app printed_app
  binds_prints shutdowns_prints checked_prints browser_opens_prints printed_prints
  binds_check_events shutdowns_check_events checked_check_events
  browser_opens_check_events printed_check_events
  binds_exists shutdowns_exists browser_opens_exists checked_exists
  printed_exists app_nil_r : calls.

(** Splits a goal about [outcome_table] or [trace_table] by the answers of
    the world, closing each case as soon as it is decided. *)
Ltac split_errno :=
  repeat match goal with
         | |- context [Z.eqb ?n 48] => destruct (Z.eqb n 48)
         end.

Ltac settle :=
  cbn in *; autorewrite with calls in *; cbn in *; split_errno;
  autorewrite with calls in *; cbn in *;
  try tauto; try discriminate; try congruence;
  try solve [intuition (try discriminate; try congruence; try lia)].

Ltac by_world c w :=
  destruct (chdir_raises w) as [[]|];
  [ settle ..
  | destruct (absent w (required_files c));
    [ destruct (bind_raises w) as [[]|];
      [ settle ..
      | destruct (browser_open w) as [[]|[]];
        destruct (serve_forever_raises w) as [[]|]; settle ]
    | settle ] ].

(** ** Before the [try] *)

(** Whatever [os.chdir] raises leaves [main] as it is: it is raised before
    the [try], so no clause sees it.  No file is checked, nothing is
    printed, no server is constructed, and the status is not 0. *)
Theorem chdir_exception_escapes (c : config) (w : world) (e : exn) :
  chdir_raises w = Some e ->
  library_exn e = true ->
  fst (run_with c w) = Traceback e /\
  exit_status (fst (run_with c w)) <> Some 0%Z /\
  trace (snd (run_with c w)) = [EvChdir (script_dir w)] /\
  httpd (snd (run_with c w)) = None.
Proof.
  intros Hch He.
  rewrite run_with_unfold, main_with_unfold, check_required_files_run, Hch.
  cbn [fst snd trace httpd add_trace init app].
  destruct e; try discriminate; repeat split; discriminate.
Qed.

Lemma chdir_exception_escapes_witness :
  trace (snd (run chdir_denied)) = [EvChdir "/home/user/modeli-mundi-3d"] /\
  httpd (snd (run chdir_denied)) = None.
Proof.
  destruct (chdir_exception_escapes default_config chdir_denied
              (OSError 13
                 "[Errno 13] Permission denied: '/home/user/modeli-mundi-3d'"))
    as [_ [_ [H3 H4]]].
  - reflexivity.
  - reflexivity.
  - split; [exact H3 | exact H4].
Defined.

(** When [os.chdir] succeeds every required file is checked once, in the
    order of the list and before anything else happens: the loop does not
    stop at the first missing file, and nothing is printed or bound before
    the last check. *)
Theorem all_required_files_checked_first (c : config) (w : world) :
  chdir_raises w = None ->
  checked (trace (snd (run_with c w))) = required_files c /\
  exists rest,
    trace (snd (run_with c w)) =
      (EvChdir (script_dir w) :: map EvExists (required_files c) ++ rest)%list /\
    checked rest = [].
Proof.
  intros Hch. rewrite (proj2 (run_table c w)). unfold trace_table. rewrite Hch.
  assert (H : exists rest,
             match absent w (required_files c) with
             | [] =>
                 match bind_raises w with
                 | Some e => EvBind (HOST c) (PORT c) :: handler_events c e None
                 | None =>
                     (bootstrap_events c w ++
                      (if browser_passes w
                       then warning_events c w ++
                            EvServeForever ::
                            match serve_forever_raises w with
                            | Some e => handler_events c e (Some true)
                            | None => []
                            end
                       else match browser_open w with
                            | Returned _ => []
                            | Raised e => handler_events c e (Some false)
                            end))%list
                 end
             | m0 :: m => map EvPrint (missing_report (m0 :: m))
             end = rest /\ checked rest = []).
  { eexists. split; [reflexivity|].
    unfold bootstrap_events, browser_passes, warning_events.
    destruct (absent w (required_files c)); [|settle].
    destruct (bind_raises w) as [[]|]; [settle..|].
    destruct (browser_open w) as [[]|[]];
      destruct (serve_forever_raises w) as [[]|]; settle. }
  destruct H as [rest [-> Hrest]]. split.
  - now rewrite checked_app, checked_check_events, Hrest, app_nil_r.
  - exists rest. split; [reflexivity | exact Hrest].
Qed.

Lemma all_required_files_checked_first_witness :
  checked (trace (snd (run app_js_missing))) = ["index.html"; "js/app.js"].
Proof.
  destruct (all_required_files_checked_first default_config app_js_missing)
    as [H _].
  - reflexivity.
  - exact H.
Defined.

(** ** What a run calls *)

Lemma main_with_configured (c : config) (w : world) :
  preserves (configured_call c w) (main_with c w).
Proof.
  open_script. unfold open_browser, webbrowser_open, print. walk.
  all: cbn [configured_call]; auto.
Qed.

(** In every run the external calls carry the configured arguments only:
    the directory entered is the script's, the files checked are required
    files, the address bound is [(HOST, PORT)] and the page opened is the
    demo page. *)
Theorem calls_as_configured (c : config) (w : world) :
  (forall dir, In (EvChdir dir) (trace (snd (run_with c w))) ->
               dir = script_dir w) /\
  (forall p, In (EvExists p) (trace (snd (run_with c w))) ->
             In p (required_files c)) /\
  (forall host port, In (EvBind host port) (trace (snd (run_with c w))) ->
                     host = HOST c /\ port = PORT c) /\
  (forall url, In (EvBrowserOpen url) (trace (snd (run_with c w))) ->
               url = base_url c ++ "/demo.html").
Proof.
  pose proof (main_with_configured c w init (Forall_nil _)) as H.
  rewrite Forall_forall in H. rewrite run_with_unfold. cbn [snd].
  repeat split; intros; match goal with Hin : In _ _ |- _ => apply H in Hin end;
    cbn [configured_call] in *; tauto.
Qed.

(** The constructor of the server is called at most once in a run, and
    exactly when the directory was entered and no required file is absent;
    the browser is called at most once, and exactly when in addition the
    constructor returned. *)
Theorem bind_and_browser_once (c : config) (w : world) :
  binds (trace (snd (run_with c w))) =
    match chdir_raises w, absent w (required_files c) with
    | None, [] => [(HOST c, PORT c)]
    | _, _ => []
    end /\
  browser_opens (trace (snd (run_with c w))) =
    match chdir_raises w, absent w (required_files c), bind_raises w with
    | None, [], None => [demo_url c]
    | _, _, _ => []
    end.
Proof.
  rewrite (proj2 (run_table c w)).
  unfold trace_table, bootstrap_events, browser_passes, warning_events.
  by_world c w.
Qed.

(** [shutdown] is called at most once in a run, and exactly when a
    [KeyboardInterrupt] is raised after the server was constructed: by the
    browser call or by the serve loop. *)
Theorem shutdown_called_iff (c : config) (w : world) :
  (shutdowns (trace (snd (run_with c w))) <= 1)%nat /\
  (shutdowns (trace (snd (run_with c w))) = 1%nat <->
   startup_ok c w /\
   (browser_open w = Raised KeyboardInterrupt \/
    browser_passes w = true /\ serve_forever_raises w = Some KeyboardInterrupt)).
Proof.
  rewrite startup_ok_iff, (proj2 (run_table c w)).
  unfold trace_table, bootstrap_events, browser_passes, warning_events.
  by_world c w.
Qed.

(** ** How a run ends *)

(** Status 0 has one way in: a [KeyboardInterrupt] out of the serve loop
    of a server that started.  (The external calls are taken not to raise
    [SystemExit] themselves.) *)
Theorem exit_0_iff_interrupted_in_loop (c : config) (w : world) :
  no_SystemExit w = true ->
  (fst (run_with c w) = Exited 0 <->
   startup_ok c w /\ browser_passes w = true /\
   serve_forever_raises w = Some KeyboardInterrupt).
Proof.
  intros Hw. rewrite startup_ok_iff, (proj1 (run_table c w)).
  unfold outcome_table, browser_passes, no_SystemExit in *.
  by_world c w.
Qed.

Lemma exit_0_iff_interrupted_in_loop_witness :
  fst (run interrupted) = Exited 0 /\ fst (run no_browser) = Exited 0 /\
  fst (run interrupted_in_bind) <> Exited 0.
Proof.
  split; [|split].
  - apply (exit_0_iff_interrupted_in_loop default_config interrupted);
      [reflexivity|].
    split; [|split; reflexivity].
    split; [reflexivity|]. split; [intros p _; reflexivity | reflexivity].
  - apply (exit_0_iff_interrupted_in_loop default_config no_browser);
      [reflexivity|].
    split; [|split; reflexivity].
    split; [reflexivity|]. split; [intros p _; reflexivity | reflexivity].
  - intros H.
    apply (exit_0_iff_interrupted_in_loop default_config interrupted_in_bind)
      in H; [|reflexivity].
    destruct H as [[_ [_ H]] _]. discriminate H.
Defined.

(** The script ends a run with status 0 or 1 only. *)
Theorem exit_status_0_or_1 (c : config) (w : world) (n : Z) :
  no_SystemExit w = true ->
  fst (run_with c w) = Exited n ->
  n = 0%Z \/ n = 1%Z.
Proof.
  intros Hw. rewrite (proj1 (run_table c w)).
  unfold outcome_table, browser_passes, no_SystemExit in *.
  by_world c w.
  all: intros H; injection H as <-; auto.
Qed.

Lemma exit_status_0_or_1_witness :
  fst (run app_js_missing) = Exited 1 /\ (1 = 0 \/ 1 = 1)%Z.
Proof.
  split; [reflexivity|].
  apply (exit_status_0_or_1 default_config app_js_missing 1);
    reflexivity.
Defined.



(** The process stays in the serve loop exactly when the server started,
    control got past the browser call, and the loop raises nothing. *)
Theorem serving_forever_iff (c : config) (w : world) :
  fst (run_with c w) = Running InServeForever <->
  startup_ok c w /\ browser_passes w = true /\ serve_forever_raises w = None.
Proof.
  rewrite startup_ok_iff, (proj1 (run_table c w)).
  unfold outcome_table, browser_passes.
  by_world c w.
Qed.


(** ** Errors of the server *)

Lemma bind_OSError_run_witness :
  fst (run (port_occupied Windows)) = Exited 1 /\
  printed (trace (snd (run (port_occupied Windows)))) =
    [error_starting (address_in_use Windows)].
Proof.
  destruct (bind_OSError_run default_config (port_occupied Windows) 10048
              "[WinError 10048] Only one usage of each socket address (protocol/network address/port) is normally permitted")
    as [H1 [H2 _]]; [reflexivity .. | split; [exact H1 | exact H2]].
Defined.

(** An exception of the constructor of the server that is no [OSError]
    is reported by the one line of the last clause, as unexpected; the
    status is 1, the banner is not printed and the browser is not
    called. *)
Theorem bind_unexpected_exception (c : config) (w : world) (e : exn) :
  chdir_raises w = None ->
  absent w (required_files c) = [] ->
  bind_raises w = Some e ->
  is_Exception e = true ->
  is_OSError e = false ->
  fst (run_with c w) = Exited 1 /\
  printed (trace (snd (run_with c w))) =
    ["❌ Unexpected error: " ++ str_of_exn e] /\
  browser_opens (trace (snd (run_with c w))) = [] /\
  httpd (snd (run_with c w)) = None.
Proof.
  intros Hch Habs Hb He Hos.
  rewrite (run_after_check c w Hch Habs).
  rewrite (create_server_bind_raises c w _ _ Hb), (handle_Exception c e _ He).
  cbn [fst snd outcome_of add_trace trace httpd init app].
  autorewrite with calls.
  destruct e; try discriminate; repeat split; reflexivity.
Qed.

Lemma bind_unexpected_exception_witness :
  printed (trace (snd (run bind_overflows))) =
    ["❌ Unexpected error: bind(): port must be 0-65535."].
Proof.
  destruct (bind_unexpected_exception default_config bind_overflows
              (OtherException "bind(): port must be 0-65535."))
    as [_ [H _]]; [reflexivity .. | exact H].
Defined.

(** The outer [try] also covers the serve loop: an [OSError] that ends the
    loop of a server that started is reported by the clause written for
    the start: after the banner (and the browser warning, if any) come
    the port-in-use lines when its number is 48 and the
    "Error starting server" line otherwise; the status is 1. *)
Theorem serve_loop_error_reported_as_start_error
    (c : config) (w : world) (n : Z) (str : string) :
  startup_ok c w ->
  browser_passes w = true ->
  serve_forever_raises w = Some (OSError n str) ->
  fst (run_with c w) = Exited 1 /\
  printed (trace (snd (run_with c w))) =
    (banner_lines c w ++ printed (warning_events c w) ++
     (if Z.eqb n 48 then port_in_use c
      else [("❌ Error starting server: " ++ str)%string]))%list /\
  shutdowns (trace (snd (run_with c w))) = O.
Proof.
  intros Hok Hp Hs. rewrite (run_served c w Hok Hp), Hs. cbv zeta.
  rewrite handle_run.
  cbn [fst snd outcome_of add_trace set_httpd trace init app].
  unfold bootstrap_events, warning_events. autorewrite with calls.
  destruct (browser_open w) as [b|e]; [|destruct (is_Exception e)];
    destruct (Z.eqb n 48); cbn; autorewrite with calls; cbn;
    repeat split; try reflexivity.
Qed.

Lemma serve_loop_error_reported_as_start_error_witness :
  fst (run loop_fails) = Exited 1 /\
  printed (trace (snd (run loop_fails))) =
    (banner_lines default_config loop_fails ++
     ["❌ Error starting server: [Errno 5] Input/output error"])%list.
Proof.
  destruct (serve_loop_error_reported_as_start_error default_config loop_fails
              5 "[Errno 5] Input/output error") as [H1 [H2 _]].
  - split; [reflexivity|]. split; [intros p _; reflexivity | reflexivity].
  - reflexivity.
  - reflexivity.
  - split; [exact H1 | exact H2].
Defined.

(** A [KeyboardInterrupt] out of the browser call, after the server was
    constructed and before the serve loop, is not taken by the inner
    [except Exception]; the outer clause prints its line and calls
    [shutdown], which waits for a serve loop that never ran: the process
    neither exits nor serves, and keeps the port. *)
Theorem interrupt_in_browser_call_blocks (c : config) (w : world) :
  startup_ok c w ->
  browser_open w = Raised KeyboardInterrupt ->
  fst (run_with c w) = Running InShutdown /\
  exit_status (fst (run_with c w)) = None /\
  trace (snd (run_with c w)) =
    (check_events c w ++ bootstrap_events c w ++
     [EvPrint stopped_by_user; EvShutdown])%list /\
  accepting (fst (run_with c w)) = false /\
  port_held (run_with c w) = true.
Proof.
  intros Hok Hbo. pose proof (startup_ok_absent c w Hok) as Habs.
  destruct Hok as [Hch [_ Hb]].
  rewrite (run_after_check c w Hch Habs).
  rewrite create_server_unfold, try_block_run, Hb, Hbo. cbv zeta.
  cbn [is_Exception]. rewrite handle_run.
  cbn [httpd set_httpd add_trace bound_server is_shut_down
       fst snd outcome_of exit_status accepting port_held alive
       shutdown_requested listening andb trace init app].
  repeat split. now rewrite <- !app_assoc.
Qed.

Lemma interrupt_in_browser_call_blocks_witness :
  fst (run interrupted_in_browser) = Running InShutdown /\
  port_held (run interrupted_in_browser) = true.
Proof.
  destruct (interrupt_in_browser_call_blocks default_config interrupted_in_browser)
    as [H1 [_ [_ [_ H5]]]].
  - split; [reflexivity|]. split; [intros p _; reflexivity | reflexivity].
  - reflexivity.
  - split; [exact H1 | exact H5].
Defined.
